(** * AlloyDB connection engine (internal/alloydbutil/engine.go)

    A shallow embedding of the engine of the alloydbutil package: identity
    resolution ([getUser]), pool construction ([createPool],
    [NewPostgresEngine]), the engine life cycle ([Close]) and the DDL
    provisioning methods ([InitVectorstoreTable], [InitChatHistoryTable],
    [NewVectorstoreTableOptions]).

    Go strings are [string]; Go's [int] is [Z]; a Go pointer or function
    value that may be nil is an [option]; a Go [(value, error)] result keeps
    both components, the error being [option error] with [None] for nil.
    Calls that leave the package (the injected e-mail retriever, the
    alloydbconn dialer, the pgx pool) are recorded in a trace of events and
    answered by an oracle that may depend on the whole history; a nil
    dereference is the outcome [Panic]. *)

From Stdlib Require Import String Ascii List ZArith Bool Lia DecimalString.
Import ListNotations.
Local Open Scope list_scope.
Local Open Scope string_scope.

Set Implicit Arguments.

(** ** Characters that the Go literals of the source contain *)

Definition DQ : string := String (ascii_of_nat 34) EmptyString.
Definition LF : string := String (ascii_of_nat 10) EmptyString.
Definition TAB : string := String (ascii_of_nat 9) EmptyString.

(** ** Errors: [errors.New], [fmt.Errorf] with [%w] *)

#[warnings="-register-all"]
Inductive error : Type :=
| MkError (msg : string) (wrapped : option error).

(** [err.Error()] *)
Definition Error (e : error) : string :=
  match e with MkError m _ => m end.

(** [errors.Unwrap(err)] *)
Definition Unwrap (e : error) : option error :=
  match e with MkError _ w => w end.

Definition errors_New (msg : string) : error := MkError msg None.

(** ** [fmt.Sprintf]

    Operands of the verbs that engine.go uses: [%s] with a string, [%d] with
    an int, [%v] and [%w] with an error.  Every call site of the source
    passes exactly as many operands as its format has verbs; a verb without
    an operand prints Go's [%!v(MISSING)] marker. *)

Inductive Arg : Type :=
| AStr (s : string)
| AInt (z : Z)
| AErr (e : error).

(** [strconv.Itoa] on a Go int. *)
Definition Itoa (z : Z) : string := NilZero.string_of_int (Z.to_int z).

Definition formatArg (a : Arg) : string :=
  match a with
  | AStr s => s
  | AInt z => Itoa z
  | AErr e => Error e
  end.

Fixpoint Sprintf (format : string) (a : list Arg) : string :=
  match format with
  | EmptyString => EmptyString
  | String c rest =>
      if Ascii.eqb c "%" then
        match rest with
        | EmptyString => "%!(NOVERB)"
        | String v rest' =>
            if Ascii.eqb v "%" then String "%" (Sprintf rest' a)
            else
              match a with
              | [] => "%!" ++ String v "(MISSING)" ++ Sprintf rest' []
              | x :: a' => formatArg x ++ Sprintf rest' a'
              end
        end
      else String c (Sprintf rest a)
  end.

(** The operand that the first [%w] of a format consumes, if it is an
    error: the error that [fmt.Errorf] wraps. *)
Fixpoint wrappedOperand (format : string) (a : list Arg) : option error :=
  match format with
  | EmptyString => None
  | String c rest =>
      if Ascii.eqb c "%" then
        match rest with
        | EmptyString => None
        | String v rest' =>
            if Ascii.eqb v "%" then wrappedOperand rest' a
            else
              match a with
              | [] => None
              | x :: a' =>
                  if Ascii.eqb v "w" then
                    match x with
                    | AErr e => Some e
                    | _ => wrappedOperand rest' a'
                    end
                  else wrappedOperand rest' a'
              end
        end
      else wrappedOperand rest a
  end.

Definition fmt_Errorf (format : string) (a : list Arg) : error :=
  MkError (Sprintf format a) (wrappedOperand format a).

(** [strings.Contains(s, sub)] as a proposition. *)
Definition Contains (s sub : string) : Prop :=
  exists pre post, s = pre ++ sub ++ post.

(** ** Handles of the external collaborators *)

Inductive Context : Type :=
| Background
| WithCancel (parent : Context).

(** [alloydbconn.Option]: only [WithIAMAuthN] is used by the engine. *)
Inductive DialerOption : Type :=
| WithIAMAuthN.

(** [alloydbconn.DialOption]: the network path of one dial. *)
Inductive DialOption : Type :=
| WithPrivateIP
| WithPublicIP.

Definition Dialer := nat.  (* *alloydbconn.Dialer *)
Definition Conn := nat.    (* net.Conn *)
Definition PoolId := nat.  (* identity of a *pgxpool.Pool *)

Inductive Event : Type :=
| EvEmailRetriever (ctx : Context)
| EvNewDialer (ctx : Context) (opts : list DialerOption)
| EvParseConfig (dsn : string)
| EvNewWithConfig (ctx : Context) (dsn : string)
| EvDial (d : Dialer) (ctx : Context) (instanceURI : string)
         (opts : list DialOption)
| EvExec (pool : PoolId) (ctx : Context) (sql : string)
| EvPoolClose (pool : PoolId).

Definition Trace := list Event.

(** ** The monad of engine code: a trace of external calls, or a panic *)

Inductive Outcome (A : Type) : Type :=
| Done (a : A) (h : Trace)
| Panic (msg : string) (h : Trace).

Arguments Panic {A} msg h.

Definition M (A : Type) : Type := Trace -> Outcome A.

Definition ret {A} (a : A) : M A := fun h => Done a h.

Definition bind {A B} (m : M A) (k : A -> M B) : M B :=
  fun h =>
    match m h with
    | Done a h' => k a h'
    | Panic msg h' => Panic msg h'
    end.

Definition panic {A} (msg : string) : M A := fun h => Panic msg h.

(** An external call: the oracle answers from the history, the call is
    appended to it. *)
Definition call {A} (e : Event) (answer : Trace -> A) : M A :=
  fun h => Done (answer h) (h ++ [e])%list.

Declare Scope engine_scope.
Delimit Scope engine_scope with engine.
Notation "x <- m ;; k" := (bind m (fun x => k))
  (at level 61, m at next level, right associativity) : engine_scope.
Notation "' p <- m ;; k" := (bind m (fun x => let p := x in k))
  (at level 61, p pattern, m at next level, right associativity) : engine_scope.
Local Open Scope engine_scope.

Definition nilDeref : string :=
  "invalid memory address or nil pointer dereference".

(** Trace of an outcome and its value. *)
Definition traceOf {A} (o : Outcome A) : Trace :=
  match o with Done _ h => h | Panic _ h => h end.

Definition panicked {A} (o : Outcome A) : bool :=
  match o with Done _ _ => false | Panic _ _ => true end.

(** ** Types of engine.go *)

(** [type EmailRetriever func(context.Context) (string, error)]: both
    components of the result are kept; the answer may depend on the history
    of external calls. *)
Definition EmailRetriever : Type := Context -> Trace -> string * option error.

(** [pgxpool.Config] as far as the engine touches it: the parsed connection
    string and [ConnConfig.DialFunc]. *)
Record PoolConfig : Type := {
  ConnString : string;
  DialFunc : option (Context -> string -> string -> M (Conn + error))
}.

Record pgxpool_Pool : Type := {
  poolId : PoolId;
  poolConfig : PoolConfig
}.

Record PostgresEngine : Type := {
  Pool : option pgxpool_Pool
}.

(** [p.Pool = pool] *)
Definition set_Pool (p : PostgresEngine) (pool : option pgxpool_Pool)
  : PostgresEngine :=
  {| Pool := pool |}.

Record Column : Type := {
  Name : string;
  DataType : string;
  Nullable : bool
}.

(** [engineConfig] is declared in options.go; these are the fields that
    engine.go reads and writes. *)
Record engineConfig : Type := {
  projectID : string;
  region : string;
  cluster : string;
  instance : string;
  connPool : option pgxpool_Pool;
  database : string;
  user : string;
  password : string;
  ipType : string;
  iamAccountEmail : string;
  emailRetreiver : option EmailRetriever
}.

Definition set_user (cfg : engineConfig) (u : string) : engineConfig :=
  {| projectID := projectID cfg; region := region cfg;
     cluster := cluster cfg; instance := instance cfg;
     connPool := connPool cfg; database := database cfg;
     user := u; password := password cfg; ipType := ipType cfg;
     iamAccountEmail := iamAccountEmail cfg;
     emailRetreiver := emailRetreiver cfg |}.

Definition set_connPool (cfg : engineConfig) (p : option pgxpool_Pool) : engineConfig :=
  {| projectID := projectID cfg; region := region cfg;
     cluster := cluster cfg; instance := instance cfg;
     connPool := p; database := database cfg;
     user := user cfg; password := password cfg; ipType := ipType cfg;
     iamAccountEmail := iamAccountEmail cfg;
     emailRetreiver := emailRetreiver cfg |}.

(** [s != ""] *)
Definition nonEmpty (s : string) : bool := negb (String.eqb s "").

(** ** getUser (engine.go, lines 93-112) *)

(** [config.emailRetreiver(ctx)]: calling a nil func value panics. *)
Definition callEmailRetreiver (config : engineConfig) (ctx : Context)
  : M (string * option error) :=
  match emailRetreiver config with
  | None => panic nilDeref
  | Some f => call (EvEmailRetriever ctx) (f ctx)
  end.

Definition getUser (ctx : Context) (config : engineConfig)
  : M (string * bool * option error) :=
  if nonEmpty (user config) && nonEmpty (password config) then
    ret (user config, false, None)
  else if nonEmpty (iamAccountEmail config) then
    ret (iamAccountEmail config, true, None)
  else if String.eqb (user config) "" && String.eqb (password config) ""
          && String.eqb (iamAccountEmail config) "" then
    '(serviceAccountEmail, err) <- callEmailRetreiver config ctx ;;
    match err with
    | Some e =>
        ret ("", false,
             Some (fmt_Errorf "unable to retrieve service account email: %w"
                              [AErr e]))
    | None => ret (serviceAccountEmail, true, None)
    end
  else
    ret ("", false, Some (errors_New "unable to retrieve a valid username")).

(** Number of invocations of the e-mail retriever recorded in a trace. *)
Fixpoint retrieverCalls (h : Trace) : nat :=
  match h with
  | [] => 0
  | EvEmailRetriever _ :: t => S (retrieverCalls t)
  | _ :: t => retrieverCalls t
  end.

(** ** The collaborators outside the package

    Each function answers one external call from the history of calls made
    so far and the operands of the call.  A [(value, error)] result of a
    library is a sum: the libraries return a value exactly when the error is
    nil. *)

Record Externals : Type := {
  (* alloydbconn.NewDialer(ctx, opts...) *)
  alloydbconn_NewDialer : Trace -> Context -> list DialerOption -> Dialer + error;
  (* pgxpool.ParseConfig(dsn): the error, or nil *)
  pgxpool_ParseConfig : Trace -> string -> option error;
  (* pgxpool.NewWithConfig(ctx, config) *)
  pgxpool_NewWithConfig : Trace -> Context -> string -> PoolId + error;
  (* Dial(ctx, instanceURI, opts...) on a *alloydbconn.Dialer *)
  Dialer_Dial : Trace -> Dialer -> Context -> string -> list DialOption -> Conn + error;
  (* Exec(ctx, sql) on a *pgxpool.Pool: the error, or nil *)
  Pool_Exec : Trace -> PoolId -> Context -> string -> option error
}.

(** [VectorstoreTableOptions] is declared in options.go; these are the
    fields that engine.go reads and writes. *)
Record VectorstoreTableOptions : Type := {
  TableName : string;
  VectorSize : Z;
  SchemaName : string;
  ContentColumnName : string;
  EmbeddingColumn : string;
  MetadataJsonColumn : string
}.

(** [new(VectorstoreTableOptions)]: the zero value. *)
Definition zeroVectorstoreTableOptions : VectorstoreTableOptions :=
  {| TableName := ""; VectorSize := 0; SchemaName := "";
     ContentColumnName := ""; EmbeddingColumn := "";
     MetadataJsonColumn := "" |}.

Section Engine.

Variable X : Externals.

(** Option values and [applyClientOptions] live in options.go. *)
Variable ClientOption : Type.
Variable applyClientOptions : list ClientOption -> engineConfig * option error.

(** ** createPool (engine.go, lines 53-81) *)

(** Lines 54 and 57: the dialer options. *)
Definition createPool_dialeropts (usingIAMAuth : bool) : list DialerOption :=
  let dialeropts := [] in
  if usingIAMAuth then (dialeropts ++ [WithIAMAuthN])%list else dialeropts.

(** Lines 55-59: the data-source descriptor. *)
Definition createPool_dsn (cfg : engineConfig) (usingIAMAuth : bool) : string :=
  let dsn := Sprintf "user=%s password=%s dbname=%s sslmode=disable"
               [AStr (user cfg); AStr (password cfg); AStr (database cfg)] in
  if usingIAMAuth then
    Sprintf "user=%s dbname=%s sslmode=disable"
      [AStr (user cfg); AStr (database cfg)]
  else dsn.

(** Line 69. *)
Definition createPool_instanceURI (cfg : engineConfig) : string :=
  Sprintf "projects/%s/locations/%s/clusters/%s/instances/%s"
    [AStr (projectID cfg); AStr (region cfg); AStr (cluster cfg);
     AStr (instance cfg)].

(** [d.Dial(ctx, instanceURI, opt)] *)
Definition dial (d : Dialer) (ctx : Context) (instanceURI : string)
  (opts : list DialOption) : M (Conn + error) :=
  call (EvDial d ctx instanceURI opts)
       (fun h => Dialer_Dial X h d ctx instanceURI opts).

(** Lines 70-75: the closure stored in [config.ConnConfig.DialFunc]. *)
Definition createPool_DialFunc (cfg : engineConfig) (d : Dialer)
  (instanceURI : string) : Context -> string -> string -> M (Conn + error) :=
  fun ctx _ _ =>
    if String.eqb (ipType cfg) "PRIVATE" then
      dial d ctx instanceURI [WithPrivateIP]
    else
      dial d ctx instanceURI [WithPublicIP].

Definition createPool (ctx : Context) (cfg : engineConfig)
  (usingIAMAuth : bool) : M (option pgxpool_Pool * option error) :=
  let dialeropts := createPool_dialeropts usingIAMAuth in
  let dsn := createPool_dsn cfg usingIAMAuth in
  r <- call (EvNewDialer ctx dialeropts)
            (fun h => alloydbconn_NewDialer X h ctx dialeropts) ;;
  match r with
  | inr err =>
      ret (None, Some (fmt_Errorf "failed to initialize connection: %w"
                                  [AErr err]))
  | inl d =>
      perr <- call (EvParseConfig dsn) (fun h => pgxpool_ParseConfig X h dsn) ;;
      match perr with
      | Some err =>
          ret (None, Some (fmt_Errorf "failed to parse connection config: %w"
                                      [AErr err]))
      | None =>
          let instanceURI := createPool_instanceURI cfg in
          let config :=
            {| ConnString := dsn;
               DialFunc := Some (createPool_DialFunc cfg d instanceURI) |} in
          r' <- call (EvNewWithConfig ctx dsn)
                     (fun h => pgxpool_NewWithConfig X h ctx dsn) ;;
          match r' with
          | inr err =>
              ret (None, Some (fmt_Errorf "unable to create connection pool: %w"
                                          [AErr err]))
          | inl id => ret (Some {| poolId := id; poolConfig := config |}, None)
          end
      end
  end.

(** ** NewPostgresEngine (engine.go, lines 29-50)

    The result [*PostgresEngine] is [None] for nil. *)
Definition NewPostgresEngine (ctx : Context) (opts : list ClientOption)
  : M (option PostgresEngine * option error) :=
  let pgEngine := {| Pool := None |} in        (* new(PostgresEngine) *)
  let '(cfg, err) := applyClientOptions opts in
  match err with
  | Some e => ret (None, Some e)
  | None =>
      '(user, usingIAMAuth, err) <- getUser ctx cfg ;;
      match err with
      | Some e =>
          ret (None, Some (fmt_Errorf "error assigning user. Err: %w" [AErr e]))
      | None =>
          let cfg := if usingIAMAuth : bool then set_user cfg user else cfg in
          match connPool cfg with
          | None =>
              '(pool, err) <- createPool ctx cfg usingIAMAuth ;;
              let cfg := set_connPool cfg pool in
              match err with
              | Some e => ret (Some {| Pool := None |}, Some e)
              | None =>
                  ret (Some (set_Pool pgEngine (connPool cfg)), None)
              end
          | Some _ =>
              ret (Some (set_Pool pgEngine (connPool cfg)), None)
          end
      end
  end.

(** ** Close (engine.go, lines 84-89)

    The receiver is a pointer: [None] is a nil [*PostgresEngine], whose
    field read panics.  Close on a [*pgxpool.Pool] returns nothing; pgxpool
    runs its body under a [sync.Once], so the call is one that always
    returns, on a closed pool too. *)
Definition Close (p : option PostgresEngine) : M unit :=
  match p with
  | None => panic nilDeref
  | Some e =>
      match Pool e with
      | Some pool => call (EvPoolClose (poolId pool)) (fun _ => tt)
      | None => ret tt
      end
  end.

(** Whether a trace contains a close of the pool [id]. *)
Fixpoint poolClosed (id : PoolId) (h : Trace) : bool :=
  match h with
  | [] => false
  | EvPoolClose id' :: t => Nat.eqb id id' || poolClosed id t
  | _ :: t => poolClosed id t
  end.

(** ** NewVectorstoreTableOptions (engine.go, lines 143-178)

    [opts] is a pointer; the returned pointer is never nil, so the result
    carries the struct it points to. *)
Definition NewVectorstoreTableOptions (opts : option VectorstoreTableOptions)
  : M (VectorstoreTableOptions * option error) :=
  let vectorstoreTableOptions := zeroVectorstoreTableOptions in
  match opts with
  | None => panic nilDeref
  | Some opts =>
      if String.eqb (TableName opts) "" then
        ret (vectorstoreTableOptions,
             Some (fmt_Errorf "missing table name in options" []))
      else if Z.eqb (VectorSize opts) 0 then
        ret (vectorstoreTableOptions,
             Some (fmt_Errorf "missing vector size in options" []))
      else
        ret ({| TableName := TableName opts;
                VectorSize := VectorSize opts;
                SchemaName :=
                  if nonEmpty (SchemaName opts) then SchemaName opts
                  else "public";
                ContentColumnName :=
                  if nonEmpty (ContentColumnName opts)
                  then ContentColumnName opts else "content";
                EmbeddingColumn :=
                  if nonEmpty (EmbeddingColumn opts)
                  then EmbeddingColumn opts else "embedding";
                MetadataJsonColumn :=
                  if nonEmpty (MetadataJsonColumn opts)
                  then MetadataJsonColumn opts else "langchain_metadata" |},
             None)
  end.

(** ** InitVectorstoreTable (engine.go, lines 181-233) *)

(** [p.Pool.Exec(ctx, sql)] on a receiver [p *PostgresEngine]. *)
Definition poolExec (p : option PostgresEngine) (ctx : Context) (sql : string)
  : M (option error) :=
  match p with
  | None => panic nilDeref
  | Some e =>
      match Pool e with
      | None => panic nilDeref
      | Some pool =>
          call (EvExec (poolId pool) ctx sql)
               (fun h => Pool_Exec X h (poolId pool) ctx sql)
      end
  end.

(** Lines 196-202: defaults of the id column. *)
Definition defaultIdColumn (idColumn : Column) : Column :=
  let idColumn :=
    if String.eqb (Name idColumn) "" then
      {| Name := "langchain_id"; DataType := DataType idColumn;
         Nullable := Nullable idColumn |}
    else idColumn in
  if String.eqb (DataType idColumn) "" then
    {| Name := Name idColumn; DataType := "UUID";
       Nullable := Nullable idColumn |}
  else idColumn.

(** Line 190: the statement of the overwrite branch. *)
Definition dropTableQuery (vsTableOpts : VectorstoreTableOptions) : string :=
  Sprintf ("DROP TABLE IF EXISTS " ++ DQ ++ "%s" ++ DQ ++ "." ++ DQ ++ "%s" ++ DQ)
    [AStr (SchemaName vsTableOpts); AStr (TableName vsTableOpts)].

(** Lines 212-216: the body of the loop over the metadata columns. *)
Definition addMetadataColumn (query : string) (column : Column) : string :=
  let nullable := "" in
  let nullable := if negb (Nullable column) then "NOT NULL" else nullable in
  query ++ Sprintf (", " ++ DQ ++ "%s" ++ DQ ++ " %s %s")
             [AStr (Name column); AStr (DataType column); AStr nullable].

(** Lines 196-224: the CREATE TABLE statement. *)
Definition createTableQuery (vsTableOpts : VectorstoreTableOptions)
  (metadataColumns : list Column) (idColumn : Column) (storeMetadata : bool)
  : string :=
  let idColumn := defaultIdColumn idColumn in
  let query :=
    Sprintf ("CREATE TABLE " ++ DQ ++ "%s" ++ DQ ++ "." ++ DQ ++ "%s" ++ DQ ++ " ("
             ++ LF ++ TAB ++ TAB ++ DQ ++ "%s" ++ DQ ++ " %s PRIMARY KEY,"
             ++ LF ++ TAB ++ TAB ++ DQ ++ "%s" ++ DQ ++ " TEXT NOT NULL,"
             ++ LF ++ TAB ++ TAB ++ DQ ++ "%s" ++ DQ ++ " vector(%d) NOT NULL")
      [AStr (SchemaName vsTableOpts); AStr (TableName vsTableOpts);
       AStr (Name idColumn); AStr (DataType idColumn);
       AStr (ContentColumnName vsTableOpts);
       AStr (EmbeddingColumn vsTableOpts); AInt (VectorSize vsTableOpts)] in
  let query := fold_left addMetadataColumn metadataColumns query in
  let query :=
    if storeMetadata then
      query ++ Sprintf (", " ++ DQ ++ "%s" ++ DQ ++ " JSON")
                 [AStr (MetadataJsonColumn vsTableOpts)]
    else query in
  query ++ ");".

Definition InitVectorstoreTable (p : option PostgresEngine) (ctx : Context)
  (vsTableOpts : VectorstoreTableOptions) (metadataColumns : list Column)
  (idColumn : Column) (overwriteExisting storeMetadata : bool)
  : M (option error) :=
  err <- poolExec p ctx "CREATE EXTENSION IF NOT EXISTS vector" ;;
  match err with
  | Some e => ret (Some (fmt_Errorf "failed to create extension: %v" [AErr e]))
  | None =>
      err <- (if overwriteExisting then
                poolExec p ctx (dropTableQuery vsTableOpts)
              else ret None) ;;
      match err with
      | Some e => ret (Some (fmt_Errorf "failed to drop table: %v" [AErr e]))
      | None =>
          let query :=
            createTableQuery vsTableOpts metadataColumns idColumn storeMetadata in
          err <- poolExec p ctx query ;;
          match err with
          | Some e =>
              ret (Some (fmt_Errorf "failed to create table: %v" [AErr e]))
          | None => ret None
          end
      end
  end.

(** ** InitChatHistoryTable (engine.go, lines 236-250) *)

Definition chatHistoryQuery (tableName schemaName : string) : string :=
  Sprintf ("CREATE TABLE IF NOT EXISTS " ++ DQ ++ "%s" ++ DQ ++ "." ++ DQ ++ "%s"
           ++ DQ ++ " ("
           ++ LF ++ TAB ++ TAB ++ "id SERIAL PRIMARY KEY,"
           ++ LF ++ TAB ++ TAB ++ "session_id TEXT NOT NULL,"
           ++ LF ++ TAB ++ TAB ++ "data JSONB NOT NULL,"
           ++ LF ++ TAB ++ TAB ++ "type TEXT NOT NULL"
           ++ LF ++ TAB ++ ");")
    [AStr schemaName; AStr tableName].

Definition InitChatHistoryTable (p : option PostgresEngine) (ctx : Context)
  (tableName schemaName : string) : M (option error) :=
  let createTableQuery := chatHistoryQuery tableName schemaName in
  err <- poolExec p ctx createTableQuery ;;
  match err with
  | Some e => ret (Some (fmt_Errorf "failed to execute query: %v" [AErr e]))
  | None => ret None
  end.

End Engine.

(** ** Vocabulary of the statements *)

(** One [key=value] field of a data-source descriptor, and a descriptor as
    the fields separated by single spaces. *)
Definition dsnField (kv : string * string) : string :=
  fst kv ++ "=" ++ snd kv.

Definition renderDSN (fields : list (string * string)) : string :=
  String.concat " " (map dsnField fields).

(** Whether an external call hands a descriptor other than [dsn] to pgxpool. *)
Definition usesDescriptor (dsn : string) (e : Event) : Prop :=
  match e with
  | EvParseConfig d => d = dsn
  | EvNewWithConfig _ d => d = dsn
  | _ => True
  end.

(** A double-quoted SQL identifier. *)
Definition quoted (s : string) : string := DQ ++ s ++ DQ.

(** The column definitions of the CREATE TABLE statement. *)
Definition idColumnDef (c : Column) : string :=
  quoted (Name c) ++ " " ++ DataType c ++ " PRIMARY KEY".

Definition contentColumnDef (o : VectorstoreTableOptions) : string :=
  quoted (ContentColumnName o) ++ " TEXT NOT NULL".

Definition embeddingColumnDef (o : VectorstoreTableOptions) : string :=
  quoted (EmbeddingColumn o) ++ " vector(" ++ Itoa (VectorSize o) ++ ") NOT NULL".

Definition metadataColumnDef (c : Column) : string :=
  quoted (Name c) ++ " " ++ DataType c ++ " "
  ++ (if Nullable c then "" else "NOT NULL").

Definition jsonColumnDef (o : VectorstoreTableOptions) : string :=
  quoted (MetadataJsonColumn o) ++ " JSON".

(** The statements of a trace suffix, in order of execution. *)
Fixpoint statements (h : Trace) : list string :=
  match h with
  | [] => []
  | EvExec _ _ sql :: t => sql :: statements t
  | _ :: t => statements t
  end.

(** [l1] is an initial segment of [l2]. *)
Definition isPrefix {A} (l1 l2 : list A) : Prop :=
  exists rest, l2 = (l1 ++ rest)%list.

(** Concatenation of a list of strings. *)
Definition concatAll (l : list string) : string := fold_right append "" l.

(** [output] is [input], or [dflt] when [input] is empty. *)
Definition defaulted (input dflt output : string) : Prop :=
  (input = "" -> output = dflt) /\ (input <> "" -> output = input).

(** What the database promises for a statement that creates only what does
    not exist: once it has succeeded, running it again succeeds. *)
Definition reexecutable (X : Externals) (sql : string) : Prop :=
  forall h id ctx,
    Pool_Exec X h id ctx sql = None ->
    Pool_Exec X (h ++ [EvExec id ctx sql])%list id ctx sql = None.

(** ** The settings of a descriptor

    A descriptor is read as keyword/value settings, the syntax in which
    [pgxpool.ParseConfig] reads the text that [createPool] hands to it: a
    key runs to the first [=] and is trimmed, white space after the [=] is
    skipped, a value is quoted or runs to the next white space, and the
    key dbname is stored as database.  [None] is a text that is not read. *)

(** White space of the keyword/value syntax. *)
Definition isSpace (c : ascii) : bool :=
  existsb (Ascii.eqb c) [" "; "009"; "010"; "011"; "012"; "013"]%char.

(** [strings.TrimLeft], [strings.Trim] on white space. *)
Fixpoint TrimLeft (s : string) : string :=
  match s with
  | EmptyString => EmptyString
  | String c s' => if isSpace c then TrimLeft s' else s
  end.

Fixpoint TrimRight (s : string) : string :=
  match s with
  | EmptyString => EmptyString
  | String c s' =>
      match TrimRight s' with
      | EmptyString => if isSpace c then EmptyString else String c EmptyString
      | t => String c t
      end
  end.

Definition Trim (s : string) : string := TrimRight (TrimLeft s).

(** The text before the first [=] and the text after it. *)
Fixpoint cutAtEq (s : string) : option (string * string) :=
  match s with
  | EmptyString => None
  | String c s' =>
      if Ascii.eqb c "=" then Some (EmptyString, s')
      else
        match cutAtEq s' with
        | Some (k, r) => Some (String c k, r)
        | None => None
        end
  end.

(** A value that does not start with a quote: it runs to the next white
    space, a backslash taking the character after it along.  The result is
    the raw value and the text after the white space. *)
Fixpoint readUnquoted (s : string) : option (string * string) :=
  match s with
  | EmptyString => Some (EmptyString, EmptyString)
  | String c s' =>
      if isSpace c then Some (EmptyString, s')
      else if Ascii.eqb c "\" then
        match s' with
        | EmptyString => None
        | String c2 s'' =>
            match readUnquoted s'' with
            | Some (v, r) => Some (String c (String c2 v), r)
            | None => None
            end
        end
      else
        match readUnquoted s' with
        | Some (v, r) => Some (String c v, r)
        | None => None
        end
  end.

(** A value in single quotes, from after the opening quote. *)
Fixpoint readQuoted (s : string) : option (string * string) :=
  match s with
  | EmptyString => None
  | String c s' =>
      if Ascii.eqb c "'" then Some (EmptyString, s')
      else if Ascii.eqb c "\" then
        match s' with
        | EmptyString => None
        | String c2 s'' =>
            match readQuoted s'' with
            | Some (v, r) => Some (String c (String c2 v), r)
            | None => None
            end
        end
      else
        match readQuoted s' with
        | Some (v, r) => Some (String c v, r)
        | None => None
        end
  end.

(** [strings.Replace(s, ab, r, -1)] for a pattern of two characters. *)
Fixpoint replace2 (a b r : ascii) (s : string) : string :=
  match s with
  | EmptyString => EmptyString
  | String c1 s' =>
      match s' with
      | EmptyString => s
      | String c2 s'' =>
          if Ascii.eqb c1 a && Ascii.eqb c2 b then String r (replace2 a b r s'')
          else String c1 (replace2 a b r s')
      end
  end.

(** Backslash-backslash becomes a backslash, then backslash-quote a quote. *)
Definition unescape (raw : string) : string :=
  replace2 "\" "'" "'" (replace2 "\" "\" "\" raw).

Definition readValue (s : string) : option (string * string) :=
  match s with
  | EmptyString => Some (EmptyString, EmptyString)
  | String c s' =>
      match (if Ascii.eqb c "'" then readQuoted s' else readUnquoted s) with
      | Some (raw, r) => Some (unescape raw, r)
      | None => None
      end
  end.

(** [settings[key] = val] and [settings[key]] on a map kept as a list. *)
Fixpoint setKey (key val : string) (settings : list (string * string))
  : list (string * string) :=
  match settings with
  | [] => [(key, val)]
  | (k, v) :: rest =>
      if String.eqb k key then (k, val) :: rest
      else (k, v) :: setKey key val rest
  end.

Fixpoint setting (key : string) (settings : list (string * string))
  : option string :=
  match settings with
  | [] => None
  | (k, v) :: rest => if String.eqb k key then Some v else setting key rest
  end.

(** One setting per turn; every turn consumes at least the [=], so a fuel
    of one more than the length of the text is never used up. *)
Fixpoint parseLoop (fuel : nat) (s : string) (settings : list (string * string))
  : option (list (string * string)) :=
  match fuel with
  | 0 => None
  | S fuel' =>
      if String.eqb s "" then Some settings
      else
        match cutAtEq s with
        | None => None
        | Some (k, rest) =>
            let key := Trim k in
            match readValue (TrimLeft rest) with
            | None => None
            | Some (val, s') =>
                let key := if String.eqb key "dbname" then "database" else key in
                if String.eqb key "" then None
                else parseLoop fuel' s' (setKey key val settings)
            end
        end
  end.

Definition parseKeywordValueSettings (s : string)
  : option (list (string * string)) :=
  parseLoop (S (String.length s)) s [].


(** Values that the syntax reads back as they are: not empty, not starting
    with a quote, without white space and without backslash. *)
Definition plainChar (c : ascii) : bool :=
  negb (isSpace c) && negb (Ascii.eqb c "\").

Fixpoint plainChars (s : string) : bool :=
  match s with
  | EmptyString => true
  | String c s' => plainChar c && plainChars s'
  end.

Definition plainValue (s : string) : bool :=
  match s with
  | EmptyString => false
  | String c _ => negb (Ascii.eqb c "'") && plainChars s
  end.

(** The setting of a key in a descriptor. *)
Definition descriptorSetting (key dsn : string) : option string :=
  match parseKeywordValueSettings dsn with
  | Some settings => setting key settings
  | None => None
  end.

(** ** Sample data: the configurations of TestGetUser and stand-ins for the
    collaborators *)

Definition sampleRetriever : EmailRetriever :=
  fun _ _ => ("test-service-account-email@test.com", None).

Definition failingRetriever : EmailRetriever :=
  fun _ _ => ("", Some (errors_New "missing or invalid credentials")).

Definition sampleConfig (u p e : string) (f : option EmailRetriever)
  : engineConfig :=
  {| projectID := "proj"; region := "us-central1"; cluster := "c1";
     instance := "i1"; connPool := None; database := "db";
     user := u; password := p; ipType := "PUBLIC";
     iamAccountEmail := e; emailRetreiver := f |}.

(** Collaborators that always succeed. *)
Definition sampleExternals : Externals :=
  {| alloydbconn_NewDialer := fun _ _ _ => inl 1;
     pgxpool_ParseConfig := fun _ _ => None;
     pgxpool_NewWithConfig := fun _ _ _ => inl 7;
     Dialer_Dial := fun _ _ _ _ _ => inl 3;
     Pool_Exec := fun _ _ _ _ => None |}.

(** Collaborators whose pool cannot be created. *)
Definition refusingExternals : Externals :=
  {| alloydbconn_NewDialer := fun _ _ _ => inl 1;
     pgxpool_ParseConfig := fun _ _ => None;
     pgxpool_NewWithConfig := fun _ _ _ => inr (errors_New "connection refused");
     Dialer_Dial := fun _ _ _ _ _ => inr (errors_New "connection refused");
     Pool_Exec := fun _ _ _ _ => None |}.

(** A database that refuses to run the same plain CREATE TABLE statement a
    second time, and accepts everything else. *)
Definition catalogExternals : Externals :=
  {| alloydbconn_NewDialer := fun _ _ _ => inl 1;
     pgxpool_ParseConfig := fun _ _ => None;
     pgxpool_NewWithConfig := fun _ _ _ => inl 7;
     Dialer_Dial := fun _ _ _ _ _ => inl 3;
     Pool_Exec := fun h _ _ sql =>
       if String.prefix "CREATE TABLE IF NOT EXISTS" sql then None
       else if String.prefix "CREATE TABLE" sql
               && existsb (String.eqb sql) (statements h)
       then Some (errors_New "relation already exists")
       else None |}.

(** Stand-ins for [applyClientOptions]: the option list is the pair of
    username and password, or is rejected. *)
Definition sampleApply (opts : list (string * string))
  : engineConfig * option error :=
  match opts with
  | [(u, p)] => (sampleConfig u p "" (Some sampleRetriever), None)
  | _ => (sampleConfig "" "" "" None,
          Some (errors_New "missing connection fields"))
  end.

Definition samplePool : pgxpool_Pool :=
  {| poolId := 7;
     poolConfig := {| ConnString := "user=u dbname=db sslmode=disable";
                      DialFunc := None |} |}.

Definition sampleOptions : VectorstoreTableOptions :=
  {| TableName := "items"; VectorSize := 128; SchemaName := "";
     ContentColumnName := ""; EmbeddingColumn := "vec";
     MetadataJsonColumn := "" |}.

(** ** getServiceAccountEmail (engine.go, lines 115-139)

    The default e-mail retriever.  Its calls to the credential and OAuth
    libraries are listed in order beside the result; the libraries answer
    from the history of the engine and the calls made so far. *)

Definition oauth2_TokenSource := nat.  (* oauth2.TokenSource *)
Definition oauth2_Service := nat.      (* *oauth2.Service *)

(** [google.Credentials] as far as it is read: [TokenSource], nil or not. *)
Record Credentials : Type := {
  TokenSource : option oauth2_TokenSource
}.

(** [oauth2.Userinfo] as far as it is read. *)
Record Userinfo : Type := {
  Email : string
}.

Inductive GoogleCall : Type :=
| CallFindDefaultCredentials (ctx : Context) (scopes : list string)
| CallNewService (ctx : Context) (ts : oauth2_TokenSource)
| CallUserinfoGet (svc : oauth2_Service).

Record GoogleExternals : Type := {
  (* google.FindDefaultCredentials(ctx, scopes...) *)
  google_FindDefaultCredentials :
    Trace -> list GoogleCall -> Context -> list string -> Credentials + error;
  (* oauth2.NewService(ctx, option.WithTokenSource(ts)) *)
  oauth2_NewService :
    Trace -> list GoogleCall -> Context -> oauth2_TokenSource
    -> oauth2_Service + error;
  (* oauth2Service.Userinfo.Get().Do() *)
  Userinfo_Get_Do : Trace -> list GoogleCall -> oauth2_Service -> Userinfo + error
}.

Definition emailScope : string :=
  "https://www.googleapis.com/auth/userinfo.email".

(** The library calls made, and the [(string, error)] returned. *)
Definition getServiceAccountEmail_run (G : GoogleExternals) (ctx : Context)
  (h : Trace) : list GoogleCall * (string * option error) :=
  let scopes := [emailScope] in
  let c1 := [CallFindDefaultCredentials ctx scopes] in
  match google_FindDefaultCredentials G h [] ctx scopes with
  | inr err =>
      (c1, ("", Some (fmt_Errorf "unable to get default credentials: %w"
                                 [AErr err])))
  | inl credentials =>
      match TokenSource credentials with
      | None => (c1, ("", Some (fmt_Errorf "missing or invalid credentials" [])))
      | Some ts =>
          let c2 := (c1 ++ [CallNewService ctx ts])%list in
          match oauth2_NewService G h c1 ctx ts with
          | inr err =>
              (c2, ("", Some (fmt_Errorf "failed to create new service: %w"
                                         [AErr err])))
          | inl oauth2Service =>
              let c3 := (c2 ++ [CallUserinfoGet oauth2Service])%list in
              match Userinfo_Get_Do G h c2 oauth2Service with
              | inr err =>
                  (c3, ("", Some (fmt_Errorf "failed to get user info: %w"
                                             [AErr err])))
              | inl userInfo => (c3, (Email userInfo, None))
              end
          end
      end
  end.

(** The function as a value of type [EmailRetriever]. *)
Definition getServiceAccountEmail (G : GoogleExternals) : EmailRetriever :=
  fun ctx h => snd (getServiceAccountEmail_run G ctx h).

(** ** The checks of the test files *)

(** [strings.Contains(s, sub)] *)
Fixpoint strings_Contains (s sub : string) : bool :=
  String.prefix sub s
  || match s with
     | EmptyString => false
     | String _ s' => strings_Contains s' sub
     end.

(** How one subtest ends: it returns, stops in [t.Fatalf] or [t.Fatal], or
    panics. *)
Inductive Verdict : Type :=
| VPass
| VFatalfErr (format : string) (got : option error) (want : string)
| VFatalfStr (format : string) (got : string) (want : string)
| VFatal (err : error)
| VPanic (msg : string).

(** The chat-history methods that a subtest of TestValidateTable calls once
    the history exists. *)
Inductive HistoryMethod : Type :=
| AddMessage
| AddAIMessage
| AddUserMessage
| Clear.

(** Lines 120-135 of the test: the four methods in order, stopping in
    [t.Fatal] at the first error.  [answer] is the result of each method. *)
Fixpoint runHistoryMethods (answer : HistoryMethod -> option error)
  (ms called : list HistoryMethod) : Verdict * list HistoryMethod :=
  match ms with
  | [] => (VPass, called)
  | m :: ms' =>
      match answer m with
      | Some err => (VFatal err, (called ++ [m])%list)
      | None => runHistoryMethods answer ms' (called ++ [m])%list
      end
  end.

(** The body of a subtest of TestValidateTable (lines 109-136) after
    [alloydb.NewChatMessageHistory] has returned [err]: the verdict and the
    history methods called.  [tcErr] is the field [err] of the case. *)
Definition validateTableCase (tcErr : string) (err : option error)
  (answer : HistoryMethod -> option error) : Verdict * list HistoryMethod :=
  if nonEmpty tcErr
     && match err with
        | None => true
        | Some e => negb (strings_Contains (Error e) tcErr)
        end
  then (VFatalfErr "unexpected error: got %q, want %q" err tcErr, [])
  else
    match err with
    | None => (VPanic nilDeref, [])       (* err.Error() on a nil error *)
    | Some e =>
        let errStr := Error e in
        if negb (String.eqb errStr tcErr) then
          (VFatalfStr "unexpected error: got %q, want %q" errStr tcErr, [])
        else
          match err with
          | None =>
              runHistoryMethods answer
                [AddMessage; AddAIMessage; AddUserMessage; Clear] []
          | Some _ => (VPass, [])
          end
    end.

(** One row of the table of TestGetUser. *)
Record getUserTestCase : Type := {
  tcEngineConfig : engineConfig;
  expectedErr : string;
  expectedUserName : string;
  expectedIAMAuth : bool
}.

(** The [t.Errorf] reports of a subtest of TestGetUser. *)
Inductive Report : Type :=
| WrongError (expected : string) (got : error)
| WrongUser (expected got : string)
| WrongIAMAuth (expected got : bool).

(** The body of a subtest of TestGetUser (lines 133-150). *)
Definition getUserCase (tc : getUserTestCase) : M (list Report) :=
  '(user, usingIAMAuth, err) <- getUser Background (tcEngineConfig tc) ;;
  let r1 :=
    match err with
    | Some e =>
        if negb (String.eqb (Error e) (expectedErr tc))
        then [WrongError (expectedErr tc) e] else []
    | None => []
    end in
  if nonEmpty (expectedErr tc) then ret r1
  else
    let r2 :=
      if negb (String.eqb user (expectedUserName tc))
      then [WrongUser (expectedUserName tc) user] else [] in
    let r3 :=
      if negb (Bool.eqb usingIAMAuth (expectedIAMAuth tc))
      then [WrongIAMAuth (expectedIAMAuth tc) usingIAMAuth] else [] in
    ret (r1 ++ r2 ++ r3)%list.

(** The six rows of the table (test file, lines 94-127). *)
Definition getUserTestTable : list getUserTestCase :=
  let testServiceAccount := "test-service-account-email@test.com" in
  let cfg u p e f :=
    {| projectID := ""; region := ""; cluster := ""; instance := "";
       connPool := None; database := ""; user := u; password := p;
       ipType := ""; iamAccountEmail := e; emailRetreiver := f |} in
  [ {| tcEngineConfig := cfg "testUser" "testPass" "" None;
       expectedErr := ""; expectedUserName := "testUser";
       expectedIAMAuth := false |};
    {| tcEngineConfig := cfg "" "" testServiceAccount None;
       expectedErr := ""; expectedUserName := testServiceAccount;
       expectedIAMAuth := true |};
    {| tcEngineConfig := cfg "" "" "" (Some (fun _ _ => (testServiceAccount, None)));
       expectedErr := ""; expectedUserName := testServiceAccount;
       expectedIAMAuth := true |};
    {| tcEngineConfig := cfg "testUser" "" "" None;
       expectedErr := "unable to retrieve a valid username";
       expectedUserName := ""; expectedIAMAuth := false |};
    {| tcEngineConfig := cfg "" "testPassword" "" None;
       expectedErr := "unable to retrieve a valid username";
       expectedUserName := ""; expectedIAMAuth := false |};
    {| tcEngineConfig :=
         cfg "" "" ""
           (Some (fun _ _ =>
                    ("", Some (errors_New "missing or invalid credentials"))));
       expectedErr :=
         "unable to retrieve service account email: missing or invalid credentials";
       expectedUserName := ""; expectedIAMAuth := false |} ].

(** ** getEnvVariables (test files, lines 24-57 and 10-43)

    [getenv] is [os.Getenv]: the value of a variable, empty when unset.
    [t.Skip] ends the test with its message. *)

Inductive EnvResult : Type :=
| Skipped (msg : string)
| EnvValues (username password database projectID region instance cluster
             : string).

Definition getEnvVariables (getenv : string -> string) : EnvResult :=
  let username := getenv "ALLOYDB_USERNAME" in
  if String.eqb username "" then
    Skipped "ALLOYDB_USERNAME environment variable not set"
  else
  let password := getenv "ALLOYDB_PASSWORD" in
  if String.eqb password "" then
    Skipped "ALLOYDB_PASSWORD environment variable not set"
  else
  let database := getenv "ALLOYDB_DATABASE" in
  if String.eqb database "" then
    Skipped "ALLOYDB_DATABASE environment variable not set"
  else
  let projectID := getenv "ALLOYDB_PROJECT_ID" in
  if String.eqb projectID "" then
    Skipped "ALLOYDB_PROJECT_ID environment variable not set"
  else
  let region := getenv "ALLOYDB_REGION" in
  if String.eqb region "" then
    Skipped "ALLOYDB_REGION environment variable not set"
  else
  let instance := getenv "ALLOYDB_INSTANCE" in
  if String.eqb instance "" then
    Skipped "ALLOYDB_INSTANCE environment variable not set"
  else
  let cluster := getenv "ALLOYDB_CLUSTER" in
  if String.eqb cluster "" then
    Skipped "ALLOYDB_CLUSTER environment variable not set"
  else
    EnvValues username password database projectID region instance cluster.

(** The variables in the order in which they are read. *)
Definition envVariableNames : list string :=
  ["ALLOYDB_USERNAME"; "ALLOYDB_PASSWORD"; "ALLOYDB_DATABASE";
   "ALLOYDB_PROJECT_ID"; "ALLOYDB_REGION"; "ALLOYDB_INSTANCE";
   "ALLOYDB_CLUSTER"].

(** An environment in which only the cluster is missing. *)
Definition noClusterEnv (name : string) : string :=
  if String.eqb name "ALLOYDB_CLUSTER" then "" else "value".

(** ** More vocabulary *)

(** The chain of [errors.Unwrap] from an error, at most [n] steps deep. *)
Fixpoint unwrapChain (n : nat) (e : error) : list error :=
  match n with
  | 0 => [e]
  | S n' =>
      match Unwrap e with
      | Some e' => e :: unwrapChain n' e'
      | None => [e]
      end
  end.

(** Collaborators of the default retriever whose credentials carry no token
    source. *)
Definition noTokenGoogle : GoogleExternals :=
  {| google_FindDefaultCredentials := fun _ _ _ _ => inl {| TokenSource := None |};
     oauth2_NewService := fun _ _ _ _ => inl 1;
     Userinfo_Get_Do := fun _ _ _ => inl {| Email := "sa@project.iam" |} |}.

(** Collaborators of the default retriever that succeed. *)
Definition sampleGoogle : GoogleExternals :=
  {| google_FindDefaultCredentials := fun _ _ _ _ => inl {| TokenSource := Some 5 |};
     oauth2_NewService := fun _ _ _ _ => inl 1;
     Userinfo_Get_Do := fun _ _ _ => inl {| Email := "sa@project.iam" |} |}.

(** Collaborators of the default retriever whose user-info request fails. *)
Definition failingGoogle : GoogleExternals :=
  {| google_FindDefaultCredentials := fun _ _ _ _ => inl {| TokenSource := Some 5 |};
     oauth2_NewService := fun _ _ _ _ => inl 1;
     Userinfo_Get_Do := fun _ _ _ => inr (errors_New "401 unauthorized") |}.

(** A stand-in for [applyClientOptions] whose configuration carries a
    pre-supplied pool. *)
Definition suppliedApply (opts : list (string * string))
  : engineConfig * option error :=
  match opts with
  | [(u, p)] =>
      ({| projectID := ""; region := ""; cluster := ""; instance := "";
          connPool := Some samplePool; database := "db"; user := u;
          password := p; ipType := "PUBLIC"; iamAccountEmail := "";
          emailRetreiver := Some sampleRetriever |}, None)
  | _ => (sampleConfig "" "" "" None,
          Some (errors_New "missing connection fields"))
  end.

(** A stand-in for [applyClientOptions] whose retriever fails. *)
Definition failingRetrieverApply (opts : list (string * string))
  : engineConfig * option error :=
  (sampleConfig "" "" "" (Some failingRetriever), None).

Definition negativeOptions : VectorstoreTableOptions :=
  {| TableName := "items"; VectorSize := -3; SchemaName := "";
     ContentColumnName := ""; EmbeddingColumn := "";
     MetadataJsonColumn := "" |}.

Definition defaultedOptions : VectorstoreTableOptions :=
  {| TableName := "items"; VectorSize := 128; SchemaName := "public";
     ContentColumnName := "content"; EmbeddingColumn := "vec";
     MetadataJsonColumn := "langchain_metadata" |}.

Definition emptyIdColumn : Column :=
  {| Name := ""; DataType := ""; Nullable := false |}.

(** ** Strings *)

Lemma append_nil_r (s : string) : s ++ "" = s.
Proof. induction s as [|c s IH]; simpl; [reflexivity | now rewrite IH]. Qed.

Lemma append_assoc (s t u : string) : (s ++ t) ++ u = s ++ (t ++ u).
Proof. induction s as [|c s IH]; simpl; [reflexivity | now rewrite IH]. Qed.

(** Equations between strings that computation and associativity settle. *)
Ltac string_eq :=
  repeat (progress (simpl; rewrite ?append_assoc, ?append_nil_r));
  reflexivity.

Lemma nonEmpty_true (s : string) : s <> "" -> nonEmpty s = true.
Proof.
  intros H. unfold nonEmpty. destruct (String.eqb_spec s ""); [contradiction | reflexivity].
Qed.

Lemma nonEmpty_empty : nonEmpty "" = false.
Proof. reflexivity. Qed.

Lemma retrieverCalls_app (h1 h2 : Trace) :
  retrieverCalls (h1 ++ h2)%list = retrieverCalls h1 + retrieverCalls h2.
Proof.
  induction h1 as [|e h1 IH]; simpl; [reflexivity |].
  destruct e; simpl; rewrite IH; reflexivity.
Qed.

(** ** Identity resolution *)

(** C1. With a non-empty username and a non-empty password, [getUser]
    returns the username with the IAM flag off and a nil error, whatever the
    other fields of the configuration hold (identity e-mail, retriever);
    the history of external calls is unchanged, so the e-mail retriever is
    not invoked. *)
Theorem getUser_user_and_password (ctx : Context) (config : engineConfig)
  (h : Trace) :
  user config <> "" -> password config <> "" ->
  getUser ctx config h = Done (user config, false, None) h
  /\ retrieverCalls (traceOf (getUser ctx config h)) = retrieverCalls h.
Proof.
  intros Hu Hp.
  assert (E : getUser ctx config h = Done (user config, false, None) h).
  { unfold getUser. rewrite (nonEmpty_true Hu), (nonEmpty_true Hp). reflexivity. }
  split; [exact E | now rewrite E].
Qed.

Lemma getUser_user_and_password_witness :
  getUser Background
    (sampleConfig "testUser" "testPass" "e@x.com" (Some failingRetriever)) []
  = Done ("testUser", false, None) [].
Proof.
  apply (@getUser_user_and_password Background
           (sampleConfig "testUser" "testPass" "e@x.com" (Some failingRetriever)) []);
    simpl; discriminate.
Defined.

(** C2. With username, password and identity e-mail all empty and a
    retriever injected, [getUser] calls the retriever exactly once.  When the
    call answers an e-mail with a nil error the result is that e-mail with
    the IAM flag on; when it answers an error [c] the result is an error
    whose message is "unable to retrieve service account email: " followed
    by the message of [c], and which wraps [c]. *)
Theorem getUser_retrieves_email (ctx : Context) (config : engineConfig)
  (f : EmailRetriever) (h : Trace) :
  user config = "" -> password config = "" -> iamAccountEmail config = "" ->
  emailRetreiver config = Some f ->
  traceOf (getUser ctx config h) = (h ++ [EvEmailRetriever ctx])%list
  /\ retrieverCalls (traceOf (getUser ctx config h)) = S (retrieverCalls h)
  /\ (forall e, f ctx h = (e, None) ->
        getUser ctx config h
        = Done (e, true, None) (h ++ [EvEmailRetriever ctx])%list)
  /\ (forall s c, f ctx h = (s, Some c) ->
        exists err,
          getUser ctx config h
          = Done ("", false, Some err) (h ++ [EvEmailRetriever ctx])%list
          /\ Error err = "unable to retrieve service account email: " ++ Error c
          /\ Unwrap err = Some c
          /\ Contains (Error err) (Error c)).
Proof.
  intros Hu Hp He Hf.
  assert (E : getUser ctx config h =
              match f ctx h with
              | (_, Some c) =>
                  Done ("", false,
                        Some (fmt_Errorf
                                "unable to retrieve service account email: %w"
                                [AErr c]))
                       (h ++ [EvEmailRetriever ctx])%list
              | (e, None) => Done (e, true, None) (h ++ [EvEmailRetriever ctx])%list
              end).
  { unfold getUser, callEmailRetreiver, bind, call, ret.
    rewrite Hu, Hp, He, Hf. simpl.
    destruct (f ctx h) as [e [c|]]; reflexivity. }
  assert (T : traceOf (getUser ctx config h) = (h ++ [EvEmailRetriever ctx])%list).
  { rewrite E. destruct (f ctx h) as [e [c|]]; reflexivity. }
  split; [exact T |].
  split.
  { rewrite T, retrieverCalls_app. simpl. lia. }
  split.
  - intros e Hfe. rewrite E, Hfe. reflexivity.
  - intros s c Hfe. rewrite E, Hfe.
    eexists. split; [reflexivity |].
    split; [| split].
    + simpl. now rewrite append_nil_r.
    + reflexivity.
    + exists "unable to retrieve service account email: ", "".
      simpl. now rewrite !append_nil_r.
Qed.

Lemma getUser_retrieves_email_witness :
  getUser Background (sampleConfig "" "" "" (Some sampleRetriever)) []
  = Done ("test-service-account-email@test.com", true, None)
         [EvEmailRetriever Background]
  /\ exists err,
       getUser Background (sampleConfig "" "" "" (Some failingRetriever)) []
       = Done ("", false, Some err) [EvEmailRetriever Background]
       /\ Error err
          = "unable to retrieve service account email: missing or invalid credentials".
Proof.
  split.
  - apply (@getUser_retrieves_email Background
             (sampleConfig "" "" "" (Some sampleRetriever)) sampleRetriever []);
      reflexivity.
  - destruct (@getUser_retrieves_email Background
                (sampleConfig "" "" "" (Some failingRetriever)) failingRetriever []
                eq_refl eq_refl eq_refl eq_refl) as (_ & _ & _ & H).
    destruct (H "" (errors_New "missing or invalid credentials") eq_refl)
      as (err & E1 & E2 & _).
    exists err. split; [exact E1 | exact E2].
Defined.

(** C3. With exactly one of username and password non-empty, in either
    order: a non-empty identity e-mail is returned with the IAM flag on and a
    nil error; with an empty identity e-mail the result is the error
    "unable to retrieve a valid username".  In both cases the history of
    external calls is unchanged: the retriever is not invoked. *)
Theorem getUser_partial_credentials (ctx : Context) (config : engineConfig)
  (h : Trace) :
  (user config <> "" /\ password config = "")
  \/ (user config = "" /\ password config <> "") ->
  (iamAccountEmail config <> "" ->
     getUser ctx config h = Done (iamAccountEmail config, true, None) h)
  /\ (iamAccountEmail config = "" ->
        getUser ctx config h
        = Done ("", false,
                Some (errors_New "unable to retrieve a valid username")) h)
  /\ retrieverCalls (traceOf (getUser ctx config h)) = retrieverCalls h.
Proof.
  intros Hone.
  assert (B : nonEmpty (user config) && nonEmpty (password config) = false).
  { destruct Hone as [[_ Hp] | [Hu _]].
    - rewrite Hp, nonEmpty_empty. apply andb_false_r.
    - rewrite Hu, nonEmpty_empty. reflexivity. }
  assert (Z : String.eqb (user config) "" && String.eqb (password config) ""
              = false).
  { destruct Hone as [[Hu _] | [_ Hp]].
    - apply String.eqb_neq in Hu. rewrite Hu. reflexivity.
    - apply String.eqb_neq in Hp. rewrite Hp. apply andb_false_r. }
  assert (E1 : iamAccountEmail config <> "" ->
               getUser ctx config h = Done (iamAccountEmail config, true, None) h).
  { intros He. unfold getUser. rewrite B, (nonEmpty_true He). reflexivity. }
  assert (E2 : iamAccountEmail config = "" ->
               getUser ctx config h
               = Done ("", false,
                       Some (errors_New "unable to retrieve a valid username")) h).
  { intros He. unfold getUser. rewrite B, Z, He. reflexivity. }
  split; [exact E1 | split; [exact E2 |]].
  destruct (String.string_dec (iamAccountEmail config) "") as [He | He].
  - now rewrite (E2 He).
  - now rewrite (E1 He).
Qed.

Lemma getUser_partial_credentials_witness :
  getUser Background (sampleConfig "testUser" "" "" None) []
  = Done ("", false, Some (errors_New "unable to retrieve a valid username")) []
  /\ getUser Background (sampleConfig "" "testPassword" "" None) []
     = Done ("", false, Some (errors_New "unable to retrieve a valid username")) []
  /\ getUser Background (sampleConfig "testUser" "" "e@x.com" None) []
     = Done ("e@x.com", true, None) []
  /\ getUser Background (sampleConfig "" "testPassword" "e@x.com" None) []
     = Done ("e@x.com", true, None) [].
Proof.
  split; [| split; [| split]].
  - apply (@getUser_partial_credentials Background
             (sampleConfig "testUser" "" "" None) []);
      [left; split; [discriminate | reflexivity] | reflexivity].
  - apply (@getUser_partial_credentials Background
             (sampleConfig "" "testPassword" "" None) []);
      [right; split; [reflexivity | discriminate] | reflexivity].
  - apply (@getUser_partial_credentials Background
             (sampleConfig "testUser" "" "e@x.com" None) []);
      [left; split; [discriminate | reflexivity] | discriminate].
  - apply (@getUser_partial_credentials Background
             (sampleConfig "" "testPassword" "e@x.com" None) []);
      [right; split; [reflexivity | discriminate] | discriminate].
Defined.

(** ** Reading plain values back *)

Lemma readUnquoted_plain (u r : string) :
  plainChars u = true ->
  readUnquoted (u ++ String " " r) = Some (u, r).
Proof.
  induction u as [| c u IH]; simpl; [reflexivity |].
  unfold plainChar. intros H. apply andb_prop in H as [Hc Hu].
  apply andb_prop in Hc as [Hs Hb].
  apply negb_true_iff in Hs. apply negb_true_iff in Hb.
  rewrite Hs, Hb, (IH Hu). reflexivity.
Qed.

Lemma replace2_plain (b r : ascii) (u : string) :
  plainChars u = true -> replace2 "\" b r u = u.
Proof.
  induction u as [| c u IH]; [reflexivity |].
  intros H. simpl in H. apply andb_prop in H as [Hc Hu].
  unfold plainChar in Hc. apply andb_prop in Hc as [_ Hb].
  apply negb_true_iff in Hb.
  destruct u as [| c2 u']; [reflexivity |].
  change (replace2 "\" b r (String c (String c2 u')))
    with (if Ascii.eqb c "\" && Ascii.eqb c2 b
          then String r (replace2 "\" b r u')
          else String c (replace2 "\" b r (String c2 u'))).
  rewrite Hb. simpl andb. cbv iota. now rewrite (IH Hu).
Qed.

Lemma unescape_plain (u : string) : plainChars u = true -> unescape u = u.
Proof.
  intros H. unfold unescape. now rewrite (replace2_plain _ _ _ H), (replace2_plain _ _ _ H).
Qed.

Lemma readValue_plain (u r : string) :
  plainValue u = true ->
  readValue (u ++ String " " r) = Some (u, r).
Proof.
  destruct u as [| c u]; [discriminate |].
  unfold plainValue. intros H. apply andb_prop in H as [Hq Hp].
  apply negb_true_iff in Hq.
  change ((String c u ++ String " " r)) with (String c (u ++ String " " r)).
  unfold readValue. rewrite Hq.
  change (String c (u ++ String " " r)) with (String c u ++ String " " r).
  rewrite (readUnquoted_plain _ r Hp), (unescape_plain _ Hp). reflexivity.
Qed.

Lemma TrimLeft_plain (u r : string) :
  plainValue u = true -> TrimLeft (u ++ r) = u ++ r.
Proof.
  destruct u as [| c u]; [discriminate |].
  unfold plainValue. simpl. unfold plainChar. intros H.
  apply andb_prop in H as [_ H]. apply andb_prop in H as [H _].
  apply andb_prop in H as [H _]. apply negb_true_iff in H. now rewrite H.
Qed.

Lemma parseLoop_S (fuel : nat) (s : string) (settings : list (string * string)) :
  parseLoop (S fuel) s settings
  = if String.eqb s "" then Some settings
    else
      match cutAtEq s with
      | None => None
      | Some (k, rest) =>
          match readValue (TrimLeft rest) with
          | None => None
          | Some (val, s') =>
              let key := if String.eqb (Trim k) "dbname" then "database" else Trim k in
              if String.eqb key "" then None
              else parseLoop fuel s' (setKey key val settings)
          end
      end.
Proof. reflexivity. Qed.

Lemma parse_iam (u d : string) :
  plainValue u = true -> plainValue d = true ->
  parseKeywordValueSettings ("user=" ++ u ++ " dbname=" ++ d ++ " sslmode=disable")
  = Some [("user", u); ("database", d); ("sslmode", "disable")].
Proof.
  intros Hu Hd. unfold parseKeywordValueSettings.
  change (String.length ("user=" ++ u ++ " dbname=" ++ d ++ " sslmode=disable"))
    with (5 + String.length (u ++ " dbname=" ++ d ++ " sslmode=disable")).
  change ("user=" ++ u ++ " dbname=" ++ d ++ " sslmode=disable")
    with (String "u" (String "s" (String "e" (String "r" (String "="
            (u ++ String " " ("dbname=" ++ d ++ " sslmode=disable"))))))).
  rewrite parseLoop_S.
  cbn [String.eqb cutAtEq Ascii.eqb Bool.eqb].
  rewrite (TrimLeft_plain _ _ Hu), (readValue_plain _ _ Hu).
  cbv zeta. 
  change (Trim "user") with "user".
  change (String.eqb "user" "dbname") with false. cbv iota.
  change (String.eqb "user" "") with false. cbv iota.
  change ("dbname=" ++ d ++ " sslmode=disable")
    with (String "d" (String "b" (String "n" (String "a" (String "m" (String "e" (String "="
            (d ++ String " " "sslmode=disable")))))))).
  simpl plus.
  rewrite parseLoop_S.
  cbn [String.eqb cutAtEq Ascii.eqb Bool.eqb].
  rewrite (TrimLeft_plain _ _ Hd), (readValue_plain _ _ Hd).
  cbv zeta.
  change (Trim "dbname") with "dbname".
  change (String.eqb "dbname" "dbname") with true. cbv iota.
  change (String.eqb "database" "") with false. cbv iota.
  rewrite parseLoop_S.
  reflexivity.
Qed.

Lemma parse_static (u pw d : string) :
  plainValue u = true -> plainValue pw = true -> plainValue d = true ->
  parseKeywordValueSettings
    ("user=" ++ u ++ " password=" ++ pw ++ " dbname=" ++ d ++ " sslmode=disable")
  = Some [("user", u); ("password", pw); ("database", d); ("sslmode", "disable")].
Proof.
  intros Hu Hp Hd. unfold parseKeywordValueSettings.
  change (String.length
            ("user=" ++ u ++ " password=" ++ pw ++ " dbname=" ++ d
             ++ " sslmode=disable"))
    with (5 + String.length
                (u ++ " password=" ++ pw ++ " dbname=" ++ d ++ " sslmode=disable")).
  change ("user=" ++ u ++ " password=" ++ pw ++ " dbname=" ++ d ++ " sslmode=disable")
    with (String "u" (String "s" (String "e" (String "r" (String "="
            (u ++ String " "
                 ("password=" ++ pw ++ " dbname=" ++ d ++ " sslmode=disable"))))))).
  rewrite parseLoop_S.
  cbn [String.eqb cutAtEq Ascii.eqb Bool.eqb].
  rewrite (TrimLeft_plain _ _ Hu), (readValue_plain _ _ Hu).
  cbv zeta.
  change (Trim "user") with "user".
  change (String.eqb "user" "dbname") with false. cbv iota.
  change (String.eqb "user" "") with false. cbv iota.
  change ("password=" ++ pw ++ " dbname=" ++ d ++ " sslmode=disable")
    with (String "p" (String "a" (String "s" (String "s" (String "w" (String "o"
            (String "r" (String "d" (String "="
               (pw ++ String " " ("dbname=" ++ d ++ " sslmode=disable"))))))))))).
  simpl plus.
  rewrite parseLoop_S.
  cbn [String.eqb cutAtEq Ascii.eqb Bool.eqb].
  rewrite (TrimLeft_plain _ _ Hp), (readValue_plain _ _ Hp).
  cbv zeta.
  change (Trim "password") with "password".
  change (String.eqb "password" "dbname") with false. cbv iota.
  change (String.eqb "password" "") with false. cbv iota.
  change ("dbname=" ++ d ++ " sslmode=disable")
    with (String "d" (String "b" (String "n" (String "a" (String "m" (String "e"
            (String "=" (d ++ String " " "sslmode=disable")))))))).
  rewrite parseLoop_S.
  cbn [String.eqb cutAtEq Ascii.eqb Bool.eqb].
  rewrite (TrimLeft_plain _ _ Hd), (readValue_plain _ _ Hd).
  cbv zeta.
  change (Trim "dbname") with "dbname".
  change (String.eqb "dbname" "dbname") with true. cbv iota.
  change (String.eqb "database" "") with false. cbv iota.
  rewrite parseLoop_S.
  reflexivity.
Qed.

Section EngineProperties.

Variable X : Externals.
Variable ClientOption : Type.
Variable applyClientOptions : list ClientOption -> engineConfig * option error.

(** ** Pool construction *)

(** Without IAM, the name that [getUser] resolves is the configured one. *)
Lemma getUser_static_user (ctx : Context) (cfg : engineConfig) (h h1 : Trace)
  (u : string) :
  getUser ctx cfg h = Done (u, false, None) h1 -> u = user cfg.
Proof.
  unfold getUser, callEmailRetreiver, bind, call, ret, panic.
  destruct (nonEmpty (user cfg) && nonEmpty (password cfg)).
  - intros H. now inversion H.
  - destruct (nonEmpty (iamAccountEmail cfg)); [discriminate |].
    destruct (String.eqb (user cfg) "" && String.eqb (password cfg) ""
              && String.eqb (iamAccountEmail cfg) ""); [| discriminate].
    destruct (emailRetreiver cfg) as [f |]; [| discriminate].
    destruct (f ctx h) as [e [c |]]; discriminate.
Qed.

(** Every descriptor that [createPool] hands to pgxpool is the one of
    lines 55-59. *)
Lemma createPool_trace (ctx : Context) (cfg : engineConfig) (iam : bool)
  (h : Trace) :
  exists t,
    traceOf (createPool X ctx cfg iam h) = (h ++ t)%list
    /\ Forall (usesDescriptor (createPool_dsn cfg iam)) t.
Proof.
  unfold createPool, bind, call, ret.
  destruct (alloydbconn_NewDialer X h ctx (createPool_dialeropts iam)) as [d | e].
  - destruct (pgxpool_ParseConfig X _ (createPool_dsn cfg iam)) as [e |].
    + eexists. split; [simpl; rewrite <- app_assoc; reflexivity |].
      repeat constructor.
    + destruct (pgxpool_NewWithConfig X _ ctx (createPool_dsn cfg iam)) as [id | e];
        (eexists; split; [simpl; rewrite <- !app_assoc; reflexivity |];
         repeat constructor).
  - eexists. split; [reflexivity |]. repeat constructor.
Qed.

(** A pool that [createPool] returns carries the descriptor and the dial
    function of the source, and comes with a nil error. *)
Lemma createPool_success (ctx : Context) (cfg : engineConfig) (iam : bool)
  (h h' : Trace) (pool : pgxpool_Pool) (e : option error) :
  createPool X ctx cfg iam h = Done (Some pool, e) h' ->
  e = None
  /\ exists d,
       poolConfig pool
       = {| ConnString := createPool_dsn cfg iam;
            DialFunc := Some (createPool_DialFunc X cfg d
                                (createPool_instanceURI cfg)) |}.
Proof.
  unfold createPool, bind, call, ret.
  destruct (alloydbconn_NewDialer X h ctx (createPool_dialeropts iam)) as [d | e0];
    [| discriminate].
  destruct (pgxpool_ParseConfig X _ (createPool_dsn cfg iam)) as [e0 |];
    [discriminate |].
  destruct (pgxpool_NewWithConfig X _ ctx (createPool_dsn cfg iam)) as [id | e0];
    [| discriminate].
  intros H. inversion H. split; [reflexivity |]. exists d. reflexivity.
Qed.

(** A failing [createPool] returns a nil pool. *)
Lemma createPool_failure (ctx : Context) (cfg : engineConfig) (iam : bool)
  (h h' : Trace) (pool : option pgxpool_Pool) (e : error) :
  createPool X ctx cfg iam h = Done (pool, Some e) h' -> pool = None.
Proof.
  unfold createPool, bind, call, ret.
  destruct (alloydbconn_NewDialer X h ctx (createPool_dialeropts iam)) as [d | e0].
  - destruct (pgxpool_ParseConfig X _ (createPool_dsn cfg iam)) as [e0 |].
    + intros H. now inversion H.
    + destruct (pgxpool_NewWithConfig X _ ctx (createPool_dsn cfg iam)) as [id | e0];
        intros H; now inversion H.
  - intros H. now inversion H.
Qed.

(** [createPool] never panics. *)
Lemma createPool_no_panic (ctx : Context) (cfg : engineConfig) (iam : bool)
  (h : Trace) :
  panicked (createPool X ctx cfg iam h) = false.
Proof.
  unfold createPool, bind, call, ret.
  destruct (alloydbconn_NewDialer X h ctx (createPool_dialeropts iam)) as [d | e0];
    [| reflexivity].
  destruct (pgxpool_ParseConfig X _ (createPool_dsn cfg iam)) as [e0 |];
    [reflexivity |].
  destruct (pgxpool_NewWithConfig X _ ctx (createPool_dsn cfg iam)); reflexivity.
Qed.

(** Once the options are applied and the identity is resolved, an engine
    without a pre-supplied pool is whatever [createPool] makes of the
    configuration, with the resolved name stored in IAM mode. *)
Lemma NewPostgresEngine_createPool (ctx : Context) (opts : list ClientOption)
  (cfg : engineConfig) (h h1 : Trace) (u : string) (iam : bool) :
  applyClientOptions opts = (cfg, None) ->
  connPool cfg = None ->
  getUser ctx cfg h = Done (u, iam, None) h1 ->
  NewPostgresEngine X applyClientOptions ctx opts h
  = match createPool X ctx (if iam then set_user cfg u else cfg) iam h1 with
    | Done (_, Some e) h2 => Done (Some {| Pool := None |}, Some e) h2
    | Done (pool, None) h2 => Done (Some {| Pool := pool |}, None) h2
    | Panic m h2 => Panic m h2
    end.
Proof.
  intros Ha Hc Hg.
  unfold NewPostgresEngine. rewrite Ha.
  unfold bind at 1. rewrite Hg. cbv beta iota.
  assert (Hc' : connPool (if iam then set_user cfg u else cfg) = None)
    by (destruct iam; exact Hc).
  rewrite Hc'. unfold bind, ret.
  destruct (createPool X ctx (if iam then set_user cfg u else cfg) iam h1)
    as [[pool [e |]] h2 | m h2]; reflexivity.
Qed.

(** The calls of [createPool], by the answers of the collaborators. *)
Lemma createPool_calls (ctx : Context) (cfg : engineConfig) (iam : bool)
  (h : Trace) :
  let dsn := createPool_dsn cfg iam in
  let e1 := EvNewDialer ctx (createPool_dialeropts iam) in
  traceOf (createPool X ctx cfg iam h)
  = (h ++ match alloydbconn_NewDialer X h ctx (createPool_dialeropts iam) with
          | inr _ => [e1]
          | inl _ =>
              match pgxpool_ParseConfig X (h ++ [e1]) dsn with
              | Some _ => [e1; EvParseConfig dsn]
              | None => [e1; EvParseConfig dsn; EvNewWithConfig ctx dsn]
              end
          end)%list.
Proof.
  intros dsn e1. unfold createPool, bind, call, ret. fold dsn. fold e1.
  destruct (alloydbconn_NewDialer X h ctx (createPool_dialeropts iam)) as [d | e].
  - destruct (pgxpool_ParseConfig X (h ++ [e1])%list dsn) as [e |].
    + simpl. now rewrite <- app_assoc.
    + destruct (pgxpool_NewWithConfig X _ ctx dsn) as [id | e];
        simpl; now rewrite <- !app_assoc.
  - reflexivity.
Qed.

(** C4, as amended.  For a configuration without a pre-supplied pool whose
    identity resolves to the name [u] with IAM flag [iam],
    [NewPostgresEngine] creates the dialer and then, when that succeeds,
    hands to pgxpool the descriptor built from the name: the text user=[u],
    then password=password without IAM, then dbname=database and
    sslmode=disable, the values inserted as they are.  In IAM mode the text
    is a function of the name and the database alone, so it does not
    depend on the configured password.  When the name and the database
    (and, without IAM, the password) are plain values (not empty, not
    starting with a quote, without white space or backslash), the
    descriptor reads back with user equal to the resolved name, the
    database equal to the configured one, and, in IAM mode, no password
    setting at all, without IAM the configured password. *)
Theorem createPool_descriptor_settings (ctx : Context)
  (opts : list ClientOption) (cfg : engineConfig) (h h1 : Trace) (u : string)
  (iam : bool) :
  applyClientOptions opts = (cfg, None) ->
  connPool cfg = None ->
  getUser ctx cfg h = Done (u, iam, None) h1 ->
  let cfg' := if iam then set_user cfg u else cfg in
  let dsn := createPool_dsn cfg' iam in
  let e1 := EvNewDialer ctx (createPool_dialeropts iam) in
  traceOf (NewPostgresEngine X applyClientOptions ctx opts h)
  = (h1 ++ match alloydbconn_NewDialer X h1 ctx (createPool_dialeropts iam) with
           | inr _ => [e1]
           | inl _ =>
               match pgxpool_ParseConfig X (h1 ++ [e1]) dsn with
               | Some _ => [e1; EvParseConfig dsn]
               | None => [e1; EvParseConfig dsn; EvNewWithConfig ctx dsn]
               end
           end)%list
  /\ dsn = (if iam then
              renderDSN [("user", u); ("dbname", database cfg);
                         ("sslmode", "disable")]
            else
              renderDSN [("user", u); ("password", password cfg);
                         ("dbname", database cfg); ("sslmode", "disable")])
  /\ (forall cfg2, user cfg2 = u -> database cfg2 = database cfg ->
                   createPool_dsn cfg2 true = createPool_dsn (set_user cfg u) true)
  /\ (plainValue u = true -> plainValue (database cfg) = true ->
      (iam = false -> plainValue (password cfg) = true) ->
      parseKeywordValueSettings dsn
      = Some (if iam then
                [("user", u); ("database", database cfg); ("sslmode", "disable")]
              else
                [("user", u); ("password", password cfg);
                 ("database", database cfg); ("sslmode", "disable")])
      /\ descriptorSetting "user" dsn = Some u
      /\ descriptorSetting "database" dsn = Some (database cfg)
      /\ descriptorSetting "password" dsn
         = (if iam then None else Some (password cfg))).
Proof.
  intros Ha Hc Hg cfg' dsn e1.
  assert (T : dsn = if iam then
                      "user=" ++ u ++ " dbname=" ++ database cfg
                      ++ " sslmode=disable"
                    else
                      "user=" ++ u ++ " password=" ++ password cfg
                      ++ " dbname=" ++ database cfg ++ " sslmode=disable").
  { subst dsn cfg'. destruct iam.
    - unfold createPool_dsn. string_eq.
    - rewrite (@getUser_static_user ctx cfg h h1 u Hg).
      unfold createPool_dsn. string_eq. }
  split; [| split; [| split]].
  - rewrite (@NewPostgresEngine_createPool ctx opts cfg h h1 u iam Ha Hc Hg).
    fold cfg'. transitivity (traceOf (createPool X ctx cfg' iam h1)).
    + destruct (createPool X ctx cfg' iam h1) as [[pool [e |]] h2 | m h2];
        reflexivity.
    + exact (createPool_calls ctx cfg' iam h1).
  - rewrite T. destruct iam; unfold renderDSN, dsnField; string_eq.
  - intros cfg2 Hu Hd. unfold createPool_dsn. simpl. rewrite Hu, Hd. reflexivity.
  - intros Pu Pd Pp.
    assert (S : parseKeywordValueSettings dsn
                = Some (if iam then
                          [("user", u); ("database", database cfg);
                           ("sslmode", "disable")]
                        else
                          [("user", u); ("password", password cfg);
                           ("database", database cfg); ("sslmode", "disable")])).
    { rewrite T. destruct iam.
      - exact (parse_iam u (database cfg) Pu Pd).
      - exact (parse_static u (password cfg) (database cfg) Pu (Pp eq_refl) Pd). }
    split; [exact S |].
    unfold descriptorSetting. rewrite S.
    destruct iam; repeat split; reflexivity.
Qed.

(** C9. The dial function that [createPool] installs in the pool
    configuration dials, whatever network and address it is given, the
    instance URI projects/P/locations/R/clusters/C/instances/I of the
    configuration, with exactly one network-path option: the private path
    when the IP type is the string PRIVATE and the public path for every
    other value. *)
Theorem DialFunc_instance_and_path (ctx : Context) (cfg : engineConfig)
  (iam : bool) (h : Trace) :
  let uri := "projects/" ++ projectID cfg ++ "/locations/" ++ region cfg
             ++ "/clusters/" ++ cluster cfg ++ "/instances/" ++ instance cfg in
  exists path,
    (path = WithPrivateIP <-> ipType cfg = "PRIVATE")
    /\ (path = WithPublicIP <-> ipType cfg <> "PRIVATE")
    /\ (forall d ctx' network addr h',
          createPool_DialFunc X cfg d (createPool_instanceURI cfg)
            ctx' network addr h'
          = Done (Dialer_Dial X h' d ctx' uri [path])
                 (h' ++ [EvDial d ctx' uri [path]])%list)
    /\ match createPool X ctx cfg iam h with
       | Done (Some pool, _) _ =>
           exists d,
             DialFunc (poolConfig pool)
             = Some (createPool_DialFunc X cfg d (createPool_instanceURI cfg))
       | Done (None, e) _ => e <> None
       | Panic _ _ => False
       end.
Proof.
  intros uri.
  assert (U : createPool_instanceURI cfg = uri).
  { unfold createPool_instanceURI, uri. string_eq. }
  exists (if String.eqb (ipType cfg) "PRIVATE" then WithPrivateIP else WithPublicIP).
  split; [| split; [| split]].
  - destruct (String.eqb_spec (ipType cfg) "PRIVATE");
      split; congruence || discriminate.
  - destruct (String.eqb_spec (ipType cfg) "PRIVATE");
      split; congruence || discriminate.
  - intros d ctx' network addr h0. unfold createPool_DialFunc, dial, call.
    rewrite U. destruct (String.eqb (ipType cfg) "PRIVATE"); reflexivity.
  - pose proof (createPool_no_panic ctx cfg iam h) as NP.
    destruct (createPool X ctx cfg iam h) as [[[pool |] e] h' | m h'] eqn:E.
    + destruct (createPool_success _ _ _ _ E) as (_ & d & Hd).
      exists d. rewrite Hd. reflexivity.
    + revert E. unfold createPool, bind, call, ret.
      destruct (alloydbconn_NewDialer X h ctx (createPool_dialeropts iam))
        as [d | e0].
      * destruct (pgxpool_ParseConfig X _ (createPool_dsn cfg iam)) as [e0 |].
        -- intros H. inversion H. discriminate.
        -- destruct (pgxpool_NewWithConfig X _ ctx (createPool_dsn cfg iam));
             intros H; inversion H; discriminate.
      * intros H. inversion H. discriminate.
    + discriminate.
Qed.

(** C10. When [createPool] fails, [NewPostgresEngine] returns a non-nil
    engine whose pool is nil together with the error of [createPool], and
    [Close] on that engine returns without any external call.  When the
    options fail to apply, or the identity fails to resolve, the engine
    returned is nil. *)
Theorem NewPostgresEngine_failures (ctx : Context) (opts : list ClientOption)
  (cfg : engineConfig) (h : Trace) :
  (forall e, applyClientOptions opts = (cfg, Some e) ->
     NewPostgresEngine X applyClientOptions ctx opts h = Done (None, Some e) h)
  /\ (forall u iam e h1,
        applyClientOptions opts = (cfg, None) ->
        getUser ctx cfg h = Done (u, iam, Some e) h1 ->
        NewPostgresEngine X applyClientOptions ctx opts h
        = Done (None,
                Some (fmt_Errorf "error assigning user. Err: %w" [AErr e])) h1)
  /\ (forall u iam h1 pool e h2,
        applyClientOptions opts = (cfg, None) ->
        connPool cfg = None ->
        getUser ctx cfg h = Done (u, iam, None) h1 ->
        createPool X ctx (if iam then set_user cfg u else cfg) iam h1
        = Done (pool, Some e) h2 ->
        NewPostgresEngine X applyClientOptions ctx opts h
        = Done (Some {| Pool := None |}, Some e) h2
        /\ Close (Some {| Pool := None |}) h2 = Done tt h2).
Proof.
  split; [| split].
  - intros e Ha. unfold NewPostgresEngine. rewrite Ha. reflexivity.
  - intros u iam e h1 Ha Hg. unfold NewPostgresEngine. rewrite Ha.
    unfold bind. rewrite Hg. reflexivity.
  - intros u iam h1 pool e h2 Ha Hc Hg Hp.
    rewrite (@NewPostgresEngine_createPool ctx opts cfg h h1 u iam Ha Hc Hg), Hp.
    split; reflexivity.
Qed.

End EngineProperties.

(** ** Engine life cycle *)

(** C8. [Close] on an engine returns (its result type carries no error)
    and does not panic, from every history: with a nil pool it makes no
    external call, with a pool it closes that pool.  Calling it again, on
    the already closed engine, returns as well and leaves the pool
    closed. *)
Theorem Close_total (e : PostgresEngine) (h : Trace) :
  match Pool e with
  | None => Close (Some e) h = Done tt h
  | Some pool => Close (Some e) h = Done tt (h ++ [EvPoolClose (poolId pool)])%list
  end
  /\ panicked (Close (Some e) h) = false
  /\ exists h2,
       (_ <- Close (Some e) ;; Close (Some e)) h = Done tt h2
       /\ forall id, poolClosed id h2 = poolClosed id (traceOf (Close (Some e) h)).
Proof.
  unfold Close, bind, call, ret.
  destruct (Pool e) as [pool |]; simpl.
  - split; [reflexivity |]. split; [reflexivity |].
    eexists. split; [reflexivity |].
    intros id. induction h as [| ev h IH]; simpl.
    + destruct (Nat.eqb id (poolId pool)); reflexivity.
    + destruct ev; simpl; try exact IH. now rewrite IH.
  - split; [reflexivity |]. split; [reflexivity |].
    exists h. split; reflexivity.
Qed.

Section ProvisioningProperties.

Variable X : Externals.

(** ** Table provisioning *)

Lemma fold_addMetadataColumn (cols : list Column) (q : string) :
  fold_left addMetadataColumn cols q
  = q ++ concatAll (map (fun d => ", " ++ d) (map metadataColumnDef cols)).
Proof.
  revert q. induction cols as [| c cols IH]; intros q; simpl.
  - now rewrite append_nil_r.
  - rewrite IH. unfold addMetadataColumn, metadataColumnDef, quoted.
    destruct (Nullable c); string_eq.
Qed.

Lemma concatAll_app (l1 l2 : list string) :
  concatAll (l1 ++ l2) = concatAll l1 ++ concatAll l2.
Proof.
  induction l1 as [| s l1 IH]; simpl; [reflexivity |].
  now rewrite IH, append_assoc.
Qed.

(** C5. The CREATE TABLE statement of [InitVectorstoreTable] lists, after
    the quoted schema and table, the id column with PRIMARY KEY, the content
    column as TEXT NOT NULL, the embedding column as vector(dim) NOT NULL,
    then one definition per metadata column in the order of the list given
    (with NOT NULL exactly when the column is not nullable), then the JSON
    metadata column exactly when storeMetadata is set.  The statements sent
    to the pool are: the extension statement, always; then, if it
    succeeded, the DROP TABLE IF EXISTS statement when overwriteExisting is
    set, and never otherwise; then, if all before succeeded, the CREATE
    TABLE statement.  So whenever the CREATE TABLE statement is sent, the
    DROP statement was sent before it exactly when overwriteExisting is
    set, and the whole plan was sent when no error is returned. *)
Theorem InitVectorstoreTable_statements (pool : pgxpool_Pool) (ctx : Context)
  (o : VectorstoreTableOptions) (cols : list Column) (idc : Column)
  (overwrite sm : bool) (h : Trace) :
  let p := Some {| Pool := Some pool |} in
  let ext := "CREATE EXTENSION IF NOT EXISTS vector" in
  let create := createTableQuery o cols idc sm in
  let drop := "DROP TABLE IF EXISTS " ++ quoted (SchemaName o) ++ "."
              ++ quoted (TableName o) in
  let plan := ([ext] ++ (if overwrite then [drop] else []) ++ [create])%list in
  let ev := EvExec (poolId pool) ctx in
  create
  = "CREATE TABLE " ++ quoted (SchemaName o) ++ "." ++ quoted (TableName o)
    ++ " (" ++ LF ++ TAB ++ TAB ++ idColumnDef (defaultIdColumn idc) ++ ","
    ++ LF ++ TAB ++ TAB ++ contentColumnDef o ++ ","
    ++ LF ++ TAB ++ TAB ++ embeddingColumnDef o
    ++ concatAll (map (fun d => ", " ++ d)
                      (map metadataColumnDef cols
                       ++ (if sm then [jsonColumnDef o] else [])))
    ++ ");"
  /\ exists issued r,
       InitVectorstoreTable X p ctx o cols idc overwrite sm h
       = Done r (h ++ map ev issued)%list
       /\ issued
          = match Pool_Exec X h (poolId pool) ctx ext with
            | Some _ => [ext]
            | None =>
                if overwrite then
                  match Pool_Exec X (h ++ [ev ext])%list (poolId pool) ctx drop with
                  | Some _ => [ext; drop]
                  | None => [ext; drop; create]
                  end
                else [ext; create]
            end
       /\ isPrefix issued plan
       /\ match r with None => issued = plan | Some _ => True end
       /\ (In create issued -> issued = plan)
       /\ (In drop issued
           <-> overwrite = true /\ Pool_Exec X h (poolId pool) ctx ext = None).
Proof.
  intros p ext create drop plan ev.
  assert (L : create
              = "CREATE TABLE " ++ quoted (SchemaName o) ++ "."
                ++ quoted (TableName o)
                ++ " (" ++ LF ++ TAB ++ TAB ++ idColumnDef (defaultIdColumn idc)
                ++ ","
                ++ LF ++ TAB ++ TAB ++ contentColumnDef o ++ ","
                ++ LF ++ TAB ++ TAB ++ embeddingColumnDef o
                ++ concatAll (map (fun d => ", " ++ d)
                                  (map metadataColumnDef cols
                                   ++ (if sm then [jsonColumnDef o] else [])))
                ++ ");").
  { subst create. unfold createTableQuery.
    rewrite fold_addMetadataColumn, map_app, concatAll_app.
    unfold idColumnDef, contentColumnDef, embeddingColumnDef, jsonColumnDef,
      quoted.
    destruct sm; string_eq. }
  split; [exact L |].
  assert (D : dropTableQuery o = drop).
  { unfold dropTableQuery, drop, quoted. string_eq. }
  assert (CE : create <> ext).
  { rewrite L. unfold ext. simpl. discriminate. }
  assert (DE : drop <> ext).
  { unfold drop, ext. simpl. discriminate. }
  assert (CD : create <> drop).
  { rewrite L. unfold drop. simpl. discriminate. }
  unfold InitVectorstoreTable, poolExec, p, bind, call, ret. simpl.
  rewrite D. fold ext. fold create. fold (ev ext).
  destruct (Pool_Exec X h (poolId pool) ctx ext) as [e1 |].
  { exists [ext]. eexists.
    split; [reflexivity |]. split; [reflexivity |].
    split; [eexists; subst plan; reflexivity |]. split; [exact I |].
    split.
    - intros [E | []]. now contradiction CE.
    - split.
      + intros [E | []]. symmetry in E. now contradiction DE.
      + intros (_ & N). discriminate. }
  destruct overwrite.
  - fold (ev drop).
    destruct (Pool_Exec X (h ++ [ev ext])%list (poolId pool) ctx drop) as [e2 |].
    { exists [ext; drop]. eexists.
      split; [simpl; rewrite <- app_assoc; reflexivity |].
      split; [reflexivity |].
      split; [eexists; subst plan; reflexivity |]. split; [exact I |].
      split.
      - intros [E | [E | []]]; [now contradiction CE |].
        symmetry in E. now contradiction CD.
      - split; [intros _; now split | intros _; right; now left]. }
    destruct (Pool_Exec X _ (poolId pool) ctx create) as [e3 |];
      (exists plan; eexists;
       split; [subst plan; simpl; rewrite <- !app_assoc; reflexivity |];
       split; [reflexivity |];
       split; [exists []; now rewrite app_nil_r |];
       split; [reflexivity || exact I |];
       split; [intros _; reflexivity |];
       split; [intros _; now split | intros _; right; now left]).
  - destruct (Pool_Exec X _ (poolId pool) ctx create) as [e3 |];
      (exists plan; eexists;
       split; [subst plan; simpl; rewrite <- !app_assoc; reflexivity |];
       split; [reflexivity |];
       split; [exists []; now rewrite app_nil_r |];
       split; [reflexivity || exact I |];
       split; [intros _; reflexivity |];
       split; [| intros (N & _); discriminate];
       intros [E | [E | []]];
       [now contradiction DE | symmetry in E; now contradiction CD]).
Qed.

(** C6. [NewVectorstoreTableOptions] on given options always returns and
    makes no external call.  It returns an error exactly when the table name
    is empty or the vector size is 0.  Otherwise the table name and vector
    size are kept, and the schema name and the content, embedding and
    metadata-JSON column names are kept when non-empty and are "public",
    "content", "embedding" and "langchain_metadata" when empty.
    [InitVectorstoreTable] gives an id column with an empty name the name
    "langchain_id" and one with an empty data type the type "UUID". *)
Theorem NewVectorstoreTableOptions_defaults (opts : VectorstoreTableOptions)
  (h : Trace) (p : option PostgresEngine) (ctx : Context)
  (cols : list Column) (idc : Column) (overwrite sm : bool) :
  (exists r e,
      NewVectorstoreTableOptions (Some opts) h = Done (r, e) h
      /\ (e <> None <-> TableName opts = "" \/ VectorSize opts = 0%Z)
      /\ (e = None ->
          TableName r = TableName opts
          /\ VectorSize r = VectorSize opts
          /\ defaulted (SchemaName opts) "public" (SchemaName r)
          /\ defaulted (ContentColumnName opts) "content" (ContentColumnName r)
          /\ defaulted (EmbeddingColumn opts) "embedding" (EmbeddingColumn r)
          /\ defaulted (MetadataJsonColumn opts) "langchain_metadata"
               (MetadataJsonColumn r)))
  /\ defaulted (Name idc) "langchain_id" (Name (defaultIdColumn idc))
  /\ defaulted (DataType idc) "UUID" (DataType (defaultIdColumn idc))
  /\ InitVectorstoreTable X p ctx opts cols idc overwrite sm h
     = InitVectorstoreTable X p ctx opts cols (defaultIdColumn idc) overwrite sm h.
Proof.
  assert (Dflt : forall s d,
             defaulted s d (if nonEmpty s then s else d)).
  { intros s d. unfold defaulted, nonEmpty.
    destruct (String.eqb_spec s ""); simpl; split; intros; congruence. }
  split; [| split; [| split]].
  - unfold NewVectorstoreTableOptions, ret.
    destruct (String.eqb_spec (TableName opts) "") as [Ht | Ht].
    { do 2 eexists. split; [reflexivity |].
      split; [split; [auto | discriminate] | discriminate]. }
    destruct (Z.eqb_spec (VectorSize opts) 0) as [Hv | Hv].
    { do 2 eexists. split; [reflexivity |].
      split; [split; [auto | discriminate] | discriminate]. }
    do 2 eexists. split; [reflexivity |].
    split; [split; [congruence | tauto] |].
    intros _. simpl. repeat (split; [reflexivity || apply Dflt |]). apply Dflt.
  - unfold defaulted, defaultIdColumn.
    destruct (String.eqb_spec (Name idc) ""); simpl;
      destruct (String.eqb_spec (DataType idc) ""); simpl;
      split; intros; congruence.
  - unfold defaulted, defaultIdColumn.
    destruct (String.eqb_spec (Name idc) ""); simpl;
      destruct (String.eqb_spec (DataType idc) ""); simpl;
      split; intros; congruence.
  - assert (Idem : defaultIdColumn (defaultIdColumn idc) = defaultIdColumn idc).
    { unfold defaultIdColumn.
      destruct (String.eqb (Name idc) "") eqn:Hn; simpl;
        destruct (String.eqb (DataType idc) "") eqn:Hd; simpl;
        rewrite ?Hn, ?Hd; reflexivity. }
    unfold InitVectorstoreTable, createTableQuery. rewrite Idem. reflexivity.
Qed.

(** C7. [InitChatHistoryTable] sends, from every history, exactly one
    statement to the pool, and always the same one for the same names:
    CREATE TABLE IF NOT EXISTS on the quoted schema and table with the
    columns id SERIAL PRIMARY KEY, session_id TEXT NOT NULL, data JSONB NOT
    NULL and type TEXT NOT NULL.  When the database lets a statement that
    succeeded succeed again, a second call with the same arguments after a
    call that returned no error returns no error. *)
Theorem InitChatHistoryTable_idempotent (pool : pgxpool_Pool) (ctx : Context)
  (tableName schemaName : string) :
  let p := Some {| Pool := Some pool |} in
  let q := "CREATE TABLE IF NOT EXISTS " ++ quoted schemaName ++ "."
           ++ quoted tableName ++ " ("
           ++ LF ++ TAB ++ TAB ++ "id SERIAL PRIMARY KEY,"
           ++ LF ++ TAB ++ TAB ++ "session_id TEXT NOT NULL,"
           ++ LF ++ TAB ++ TAB ++ "data JSONB NOT NULL,"
           ++ LF ++ TAB ++ TAB ++ "type TEXT NOT NULL"
           ++ LF ++ TAB ++ ");" in
  (forall h,
      traceOf (InitChatHistoryTable X p ctx tableName schemaName h)
      = (h ++ [EvExec (poolId pool) ctx q])%list
      /\ panicked (InitChatHistoryTable X p ctx tableName schemaName h) = false)
  /\ (reexecutable X q ->
      forall h h1,
        InitChatHistoryTable X p ctx tableName schemaName h = Done None h1 ->
        InitChatHistoryTable X p ctx tableName schemaName h1
        = Done None (h1 ++ [EvExec (poolId pool) ctx q])%list).
Proof.
  intros p q.
  assert (Q : chatHistoryQuery tableName schemaName = q).
  { unfold chatHistoryQuery, q, quoted. string_eq. }
  assert (E : forall h,
             InitChatHistoryTable X p ctx tableName schemaName h
             = Done match Pool_Exec X h (poolId pool) ctx q with
                    | Some e =>
                        Some (fmt_Errorf "failed to execute query: %v" [AErr e])
                    | None => None
                    end (h ++ [EvExec (poolId pool) ctx q])%list).
  { intros h. unfold InitChatHistoryTable, poolExec, p, bind, call, ret. simpl.
    rewrite Q. destruct (Pool_Exec X h (poolId pool) ctx q); reflexivity. }
  split.
  - intros h. rewrite E. split; reflexivity.
  - intros R h h1 H1. rewrite E in H1.
    destruct (Pool_Exec X h (poolId pool) ctx q) as [e |] eqn:Ex;
      [discriminate |].
    inversion H1 as [Hh]. rewrite E.
    rewrite (R h (poolId pool) ctx Ex). reflexivity.
Qed.

End ProvisioningProperties.

(** ** The theorems at concrete inputs *)

Lemma createPool_descriptor_settings_witness :
  descriptorSetting "user"
    (createPool_dsn (set_user (sampleConfig "" "" "" (Some sampleRetriever))
                       "test-service-account-email@test.com") true)
  = Some "test-service-account-email@test.com"
  /\ descriptorSetting "password"
       (createPool_dsn (set_user (sampleConfig "" "" "" (Some sampleRetriever))
                          "test-service-account-email@test.com") true)
     = None
  /\ descriptorSetting "password"
       (createPool_dsn (sampleConfig "testUser" "testPass" ""
                          (Some sampleRetriever)) false)
     = Some "testPass".
Proof.
  destruct (@createPool_descriptor_settings sampleExternals _ sampleApply
              Background [("", "")]
              (sampleConfig "" "" "" (Some sampleRetriever))
              [] [EvEmailRetriever Background]
              "test-service-account-email@test.com" true
              eq_refl eq_refl eq_refl) as (_ & _ & _ & H1).
  destruct (H1 eq_refl eq_refl (fun E => False_ind _ (diff_true_false E)))
    as (_ & Hu & _ & Hp).
  destruct (@createPool_descriptor_settings sampleExternals _ sampleApply
              Background [("testUser", "testPass")]
              (sampleConfig "testUser" "testPass" "" (Some sampleRetriever))
              [] [] "testUser" false eq_refl eq_refl eq_refl)
    as (_ & _ & _ & H2).
  destruct (H2 eq_refl eq_refl (fun _ => eq_refl)) as (_ & _ & _ & Hq).
  split; [exact Hu | split; [exact Hp | exact Hq]].
Defined.

(** The claim of C4 fails on a resolved name that holds a space: the
    identity e-mail [x password=y] is resolved in IAM mode, and the
    descriptor built from it has a password and another user. *)
Lemma createPool_descriptor_counterexample :
  getUser Background (sampleConfig "" "" "x password=y" None) []
  = Done ("x password=y", true, None) []
  /\ createPool_dsn
       (set_user (sampleConfig "" "" "x password=y" None) "x password=y") true
     = "user=x password=y dbname=db sslmode=disable"
  /\ Contains "user=x password=y dbname=db sslmode=disable" "password=y"
  /\ descriptorSetting "password" "user=x password=y dbname=db sslmode=disable"
     = Some "y"
  /\ descriptorSetting "user" "user=x password=y dbname=db sslmode=disable"
     = Some "x"
  /\ descriptorSetting "user" "user=x password=y dbname=db sslmode=disable"
     <> Some "x password=y".
Proof.
  split; [reflexivity |]. split; [reflexivity |].
  split; [exists "user=x ", " dbname=db sslmode=disable"; reflexivity |].
  split; [reflexivity |]. split; [reflexivity | discriminate].
Qed.

Lemma InitVectorstoreTable_statements_witness :
  exists issued r,
    InitVectorstoreTable catalogExternals (Some {| Pool := Some samplePool |})
      Background sampleOptions [] emptyIdColumn true false []
    = Done r ([] ++ map (EvExec 7 Background) issued)%list
    /\ issued
       = ["CREATE EXTENSION IF NOT EXISTS vector";
          "DROP TABLE IF EXISTS " ++ quoted "" ++ "." ++ quoted "items";
          createTableQuery sampleOptions [] emptyIdColumn false]
    /\ (In (createTableQuery sampleOptions [] emptyIdColumn false) issued ->
        issued
        = ["CREATE EXTENSION IF NOT EXISTS vector";
           "DROP TABLE IF EXISTS " ++ quoted "" ++ "." ++ quoted "items";
           createTableQuery sampleOptions [] emptyIdColumn false]).
Proof.
  destruct (@InitVectorstoreTable_statements catalogExternals samplePool
              Background sampleOptions [] emptyIdColumn true false [])
    as (_ & issued & r & H1 & H2 & _ & _ & H3 & _).
  exists issued, r. split; [exact H1 |]. split; [exact H2 | exact H3].
Defined.

Lemma NewPostgresEngine_failures_witness :
  NewPostgresEngine refusingExternals sampleApply Background
    [("testUser", "testPass")] []
  = Done (Some {| Pool := None |},
          Some (fmt_Errorf "unable to create connection pool: %w"
                  [AErr (errors_New "connection refused")]))
         [EvNewDialer Background [];
          EvParseConfig "user=testUser password=testPass dbname=db sslmode=disable";
          EvNewWithConfig Background
            "user=testUser password=testPass dbname=db sslmode=disable"]
  /\ NewPostgresEngine refusingExternals sampleApply Background [] []
     = Done (None, Some (errors_New "missing connection fields")) []
  /\ NewPostgresEngine refusingExternals sampleApply Background
       [("testUser", "")] []
     = Done (None,
             Some (fmt_Errorf "error assigning user. Err: %w"
                     [AErr (errors_New "unable to retrieve a valid username")]))
            [].
Proof.
  split; [| split].
  - destruct (@NewPostgresEngine_failures refusingExternals _ sampleApply
                Background [("testUser", "testPass")]
                (sampleConfig "testUser" "testPass" "" (Some sampleRetriever)) [])
      as (_ & _ & H).
    apply (H "testUser" false [] None
             (fmt_Errorf "unable to create connection pool: %w"
                [AErr (errors_New "connection refused")])
             [EvNewDialer Background [];
              EvParseConfig
                "user=testUser password=testPass dbname=db sslmode=disable";
              EvNewWithConfig Background
                "user=testUser password=testPass dbname=db sslmode=disable"]
             eq_refl eq_refl eq_refl eq_refl).
  - destruct (@NewPostgresEngine_failures refusingExternals _ sampleApply
                Background [] (sampleConfig "" "" "" None) [])
      as (H & _).
    apply (H (errors_New "missing connection fields") eq_refl).
  - destruct (@NewPostgresEngine_failures refusingExternals _ sampleApply
                Background [("testUser", "")]
                (sampleConfig "testUser" "" "" (Some sampleRetriever)) [])
      as (_ & H & _).
    apply (H "" false (errors_New "unable to retrieve a valid username") []
             eq_refl eq_refl).
Defined.

Lemma NewVectorstoreTableOptions_defaults_witness :
  exists r e,
    NewVectorstoreTableOptions (Some sampleOptions) [] = Done (r, e) []
    /\ (e <> None <-> TableName sampleOptions = "" \/ VectorSize sampleOptions = 0%Z)
    /\ (e = None ->
        TableName r = "items"
        /\ VectorSize r = 128%Z
        /\ defaulted "" "public" (SchemaName r)
        /\ defaulted "" "content" (ContentColumnName r)
        /\ defaulted "vec" "embedding" (EmbeddingColumn r)
        /\ defaulted "" "langchain_metadata" (MetadataJsonColumn r)).
Proof.
  exact (proj1 (@NewVectorstoreTableOptions_defaults sampleExternals
                  sampleOptions [] None Background []
                  {| Name := ""; DataType := ""; Nullable := false |}
                  false false)).
Defined.

Lemma InitChatHistoryTable_idempotent_witness :
  reexecutable catalogExternals (chatHistoryQuery "items" "public")
  /\ InitChatHistoryTable catalogExternals
       (Some {| Pool := Some samplePool |}) Background "items" "public"
       [EvExec 7 Background (chatHistoryQuery "items" "public")]
     = Done None
         [EvExec 7 Background (chatHistoryQuery "items" "public");
          EvExec 7 Background (chatHistoryQuery "items" "public")].
Proof.
  assert (R : reexecutable catalogExternals (chatHistoryQuery "items" "public")).
  { intros h id ctx _. reflexivity. }
  split; [exact R |].
  destruct (@InitChatHistoryTable_idempotent catalogExternals samplePool
              Background "items" "public") as (_ & H).
  exact (H R [] [EvExec 7 Background (chatHistoryQuery "items" "public")]
           eq_refl).
Defined.

(** ** The cases of TestGetUser and other runs *)

Example TestGetUser_static_credentials :
  getUser Background (sampleConfig "testUser" "testPass" "" None) []
  = Done ("testUser", false, None) [].
Proof. reflexivity. Qed.

Example TestGetUser_iam_account_email :
  getUser Background
    (sampleConfig "" "" "test-service-account-email@test.com" None) []
  = Done ("test-service-account-email@test.com", true, None) [].
Proof. reflexivity. Qed.

Example TestGetUser_email_from_env :
  getUser Background (sampleConfig "" "" "" (Some sampleRetriever)) []
  = Done ("test-service-account-email@test.com", true, None)
         [EvEmailRetriever Background].
Proof. reflexivity. Qed.

Example TestGetUser_failing_retriever :
  match getUser Background (sampleConfig "" "" "" (Some failingRetriever)) [] with
  | Done (_, _, Some err) _ =>
      Error err
      = "unable to retrieve service account email: missing or invalid credentials"
  | _ => False
  end.
Proof. reflexivity. Qed.

(** Without a retriever the call of line 103 is a call of a nil func. *)
Example getUser_nil_retriever :
  getUser Background (sampleConfig "" "" "" None) [] = Panic nilDeref [].
Proof. reflexivity. Qed.

(** Lower case, or nothing, is not PRIVATE: the public path is dialed. *)
Example DialFunc_lower_case_private :
  let cfg :=
    {| projectID := "proj"; region := "us-central1"; cluster := "c1";
       instance := "i1"; connPool := None; database := "db";
       user := "u"; password := "p"; ipType := "private";
       iamAccountEmail := ""; emailRetreiver := None |} in
  traceOf (createPool_DialFunc sampleExternals cfg 1
             (createPool_instanceURI cfg) Background "tcp" "host:5432" [])
  = [EvDial 1 Background
       "projects/proj/locations/us-central1/clusters/c1/instances/i1"
       [WithPublicIP]].
Proof. reflexivity. Qed.

Example DialFunc_private :
  let cfg :=
    {| projectID := "proj"; region := "us-central1"; cluster := "c1";
       instance := "i1"; connPool := None; database := "db";
       user := "u"; password := "p"; ipType := "PRIVATE";
       iamAccountEmail := ""; emailRetreiver := None |} in
  traceOf (createPool_DialFunc sampleExternals cfg 1
             (createPool_instanceURI cfg) Background "tcp" "host:5432" [])
  = [EvDial 1 Background
       "projects/proj/locations/us-central1/clusters/c1/instances/i1"
       [WithPrivateIP]].
Proof. reflexivity. Qed.

(** The table of the vector-store example: two NOT NULL metadata columns
    and the JSON column, on a table with defaulted names. *)
Example createTableQuery_cities :
  createTableQuery
    {| TableName := "items"; VectorSize := 128; SchemaName := "public";
       ContentColumnName := "content"; EmbeddingColumn := "embedding";
       MetadataJsonColumn := "langchain_metadata" |}
    [{| Name := "area"; DataType := "int"; Nullable := false |};
     {| Name := "population"; DataType := "int"; Nullable := true |}]
    {| Name := ""; DataType := ""; Nullable := false |} true
  = "CREATE TABLE " ++ DQ ++ "public" ++ DQ ++ "." ++ DQ ++ "items" ++ DQ ++ " ("
    ++ LF ++ TAB ++ TAB ++ DQ ++ "langchain_id" ++ DQ ++ " UUID PRIMARY KEY,"
    ++ LF ++ TAB ++ TAB ++ DQ ++ "content" ++ DQ ++ " TEXT NOT NULL,"
    ++ LF ++ TAB ++ TAB ++ DQ ++ "embedding" ++ DQ ++ " vector(128) NOT NULL, "
    ++ DQ ++ "area" ++ DQ ++ " int NOT NULL, "
    ++ DQ ++ "population" ++ DQ ++ " int , "
    ++ DQ ++ "langchain_metadata" ++ DQ ++ " JSON);".
Proof. reflexivity. Qed.

(** Creating the same vector table twice without overwrite, on a database
    that refuses a repeated CREATE TABLE: the second call returns the
    wrapped error, while the chat-history statement can be repeated. *)
Example InitVectorstoreTable_twice :
  let p := Some {| Pool := Some samplePool |} in
  let id := {| Name := ""; DataType := ""; Nullable := false |} in
  match (_ <- InitVectorstoreTable catalogExternals p Background sampleOptions
                [] id false false ;;
         InitVectorstoreTable catalogExternals p Background sampleOptions
           [] id false false) [] with
  | Done (Some err) h =>
      Error err = "failed to create table: relation already exists"
      /\ List.length (statements h) = 4
  | _ => False
  end.
Proof. split; reflexivity. Qed.

(** * Further properties of the engine *)

(** ** Identity resolution, beyond the cases above *)

(** The three emptiness tests of [getUser], as one case analysis. *)
Lemma getUser_cases (ctx : Context) (config : engineConfig) (h : Trace) :
  (user config <> "" /\ password config <> ""
   /\ getUser ctx config h = Done (user config, false, None) h)
  \/ ((user config = "" \/ password config = "")
      /\ iamAccountEmail config <> ""
      /\ getUser ctx config h = Done (iamAccountEmail config, true, None) h)
  \/ (user config = "" /\ password config = "" /\ iamAccountEmail config = ""
      /\ getUser ctx config h
         = match emailRetreiver config with
           | None => Panic nilDeref h
           | Some f =>
               match f ctx h with
               | (_, Some c) =>
                   Done ("", false,
                         Some (fmt_Errorf
                                 "unable to retrieve service account email: %w"
                                 [AErr c]))
                        (h ++ [EvEmailRetriever ctx])%list
               | (s, None) =>
                   Done (s, true, None) (h ++ [EvEmailRetriever ctx])%list
               end
           end)
  \/ (((user config <> "" /\ password config = "")
       \/ (user config = "" /\ password config <> ""))
      /\ iamAccountEmail config = ""
      /\ getUser ctx config h
         = Done ("", false,
                 Some (errors_New "unable to retrieve a valid username")) h).
Proof.
  unfold getUser, callEmailRetreiver, bind, call, ret, panic, nonEmpty.
  destruct (String.eqb_spec (user config) "") as [Hu | Hu];
    destruct (String.eqb_spec (password config) "") as [Hp | Hp];
    destruct (String.eqb_spec (iamAccountEmail config) "") as [He | He];
    simpl.
  - right. right. left. repeat (split; [assumption |]).
    destruct (emailRetreiver config) as [f |]; [| reflexivity].
    destruct (f ctx h) as [s [c |]]; reflexivity.
  - right. left. split; [now left |]. split; [assumption | reflexivity].
  - right. right. right. split; [right; now split |].
    split; [assumption | reflexivity].
  - right. left. split; [now left |]. split; [assumption | reflexivity].
  - right. right. right. split; [left; now split |].
    split; [assumption | reflexivity].
  - right. left. split; [now right |]. split; [assumption | reflexivity].
  - left. repeat (split; [assumption |]). reflexivity.
  - left. repeat (split; [assumption |]). reflexivity.
Qed.

(** X1. Every error of [getUser] comes with the empty name and the IAM flag
    off, and is one of two: "unable to retrieve a valid username", raised
    without any external call, or the wrapped failure of the retriever,
    raised after exactly one call of it. *)
Theorem getUser_error_shape (ctx : Context) (config : engineConfig)
  (h h' : Trace) (u : string) (iam : bool) (e : error) :
  getUser ctx config h = Done (u, iam, Some e) h' ->
  u = "" /\ iam = false
  /\ ((e = errors_New "unable to retrieve a valid username" /\ h' = h)
      \/ (exists c,
             Unwrap e = Some c
             /\ Error e = "unable to retrieve service account email: " ++ Error c
             /\ h' = (h ++ [EvEmailRetriever ctx])%list)).
Proof.
  intros H.
  destruct (getUser_cases ctx config h)
    as [(_ & _ & E) | [(_ & _ & E) | [(_ & _ & _ & E) | (_ & _ & E)]]];
    rewrite E in H.
  - discriminate.
  - discriminate.
  - destruct (emailRetreiver config) as [f |]; [| discriminate].
    destruct (f ctx h) as [s [c |]]; [| discriminate].
    inversion H; subst. split; [reflexivity |]. split; [reflexivity |].
    right. exists c. split; [reflexivity |]. split; [| reflexivity].
    simpl. now rewrite append_nil_r.
  - inversion H; subst. split; [reflexivity |]. split; [reflexivity |].
    left. split; reflexivity.
Qed.

Lemma getUser_error_shape_witness :
  "" = "" /\ false = false
  /\ ((errors_New "unable to retrieve a valid username"
       = errors_New "unable to retrieve a valid username" /\ @nil Event = [])
      \/ (exists c,
             Unwrap (errors_New "unable to retrieve a valid username") = Some c
             /\ Error (errors_New "unable to retrieve a valid username")
                = "unable to retrieve service account email: " ++ Error c
             /\ [] = ([] ++ [EvEmailRetriever Background])%list)).
Proof.
  exact (@getUser_error_shape Background (sampleConfig "testUser" "" "" None)
           [] [] "" false (errors_New "unable to retrieve a valid username")
           eq_refl).
Defined.

(** X2. With a retriever configured, [getUser] calls it exactly when
    username, password and identity e-mail are all empty, and then once; in
    every other configuration it makes no external call at all. *)
Theorem getUser_retriever_iff (ctx : Context) (config : engineConfig)
  (f : EmailRetriever) (h : Trace) :
  emailRetreiver config = Some f ->
  (traceOf (getUser ctx config h) = (h ++ [EvEmailRetriever ctx])%list
   <-> user config = "" /\ password config = "" /\ iamAccountEmail config = "")
  /\ (traceOf (getUser ctx config h) = h
      <-> ~ (user config = "" /\ password config = ""
             /\ iamAccountEmail config = ""))
  /\ panicked (getUser ctx config h) = false.
Proof.
  intros Hf.
  assert (N : forall e : Event, (h ++ [e])%list <> h).
  { intros e Heq. apply (f_equal (@List.length Event)) in Heq.
    rewrite length_app in Heq. simpl in Heq. lia. }
  destruct (getUser_cases ctx config h)
    as [(Hu & Hp & E) | [(Hup & He & E) | [(Hu & Hp & He & E) | (Hup & He & E)]]];
    rewrite E; try rewrite Hf.
  - simpl. split; [| split; [| reflexivity]].
    + split; [intros Heq; symmetry in Heq; now apply N in Heq | tauto].
    + split; [tauto | reflexivity].
  - simpl. split; [| split; [| reflexivity]].
    + split; [intros Heq; symmetry in Heq; now apply N in Heq | tauto].
    + split; [tauto | reflexivity].
  - assert (T : traceOf
                  match f ctx h with
                  | (_, Some c) =>
                      Done ("", false,
                            Some (fmt_Errorf
                                    "unable to retrieve service account email: %w"
                                    [AErr c]))
                           (h ++ [EvEmailRetriever ctx])%list
                  | (s, None) =>
                      Done (s, true, None) (h ++ [EvEmailRetriever ctx])%list
                  end = (h ++ [EvEmailRetriever ctx])%list).
    { destruct (f ctx h) as [s [c |]]; reflexivity. }
    rewrite T. split; [| split].
    + tauto.
    + split; [intros Heq; now apply N in Heq | tauto].
    + destruct (f ctx h) as [s [c |]]; reflexivity.
  - simpl. split; [| split; [| reflexivity]].
    + split; [intros Heq; symmetry in Heq; now apply N in Heq |].
      intros (Hu & Hp & _). destruct Hup as [[Hu' _] | [_ Hp']]; contradiction.
    + split; [| reflexivity].
      intros _ (Hu & Hp & _). destruct Hup as [[Hu' _] | [_ Hp']]; contradiction.
Qed.

Lemma getUser_retriever_iff_witness :
  traceOf (getUser Background
             (sampleConfig "testUser" "" "" (Some sampleRetriever)) [])
  = []
  <-> ~ ("testUser" = "" /\ "" = "" /\ "" = "").
Proof.
  exact (proj1 (proj2 (@getUser_retriever_iff Background
                         (sampleConfig "testUser" "" "" (Some sampleRetriever))
                         sampleRetriever [] eq_refl))).
Defined.

(** X3. [getUser] panics exactly when username, password and identity
    e-mail are all empty and the configuration carries no retriever; the
    panic happens before any external call. *)
Theorem getUser_panics_iff (ctx : Context) (config : engineConfig) (h : Trace) :
  (panicked (getUser ctx config h) = true
   <-> user config = "" /\ password config = "" /\ iamAccountEmail config = ""
       /\ emailRetreiver config = None)
  /\ (panicked (getUser ctx config h) = true ->
      getUser ctx config h = Panic nilDeref h).
Proof.
  destruct (getUser_cases ctx config h)
    as [(Hu & Hp & E) | [(Hup & He & E) | [(Hu & Hp & He & E) | (Hup & He & E)]]];
    rewrite E.
  - simpl. split; [| discriminate]. split; [discriminate | tauto].
  - simpl. split; [| discriminate]. split; [discriminate | tauto].
  - destruct (emailRetreiver config) as [f |].
    + destruct (f ctx h) as [s [c |]]; simpl;
        (split; [| discriminate]); (split; [discriminate |]);
        intros (_ & _ & _ & Hn); discriminate.
    + simpl. split; [| reflexivity]. split; [tauto | reflexivity].
  - simpl. split; [| discriminate]. split; [discriminate |].
    intros (Hu & Hp & _). destruct Hup as [[Hu' _] | [_ Hp']]; contradiction.
Qed.

Lemma getUser_panics_iff_witness :
  getUser Background (sampleConfig "" "" "" None) [] = Panic nilDeref [].
Proof.
  apply (proj2 (getUser_panics_iff Background (sampleConfig "" "" "" None) [])).
  reflexivity.
Defined.

(** X4. Unless both username and password are set, a non-empty identity
    e-mail is the resolved name, with the IAM flag on: also when username
    and password are both empty, and without calling the retriever. *)
Theorem getUser_identity_email (ctx : Context) (config : engineConfig)
  (h : Trace) :
  user config = "" \/ password config = "" ->
  iamAccountEmail config <> "" ->
  getUser ctx config h = Done (iamAccountEmail config, true, None) h.
Proof.
  intros Hup He.
  destruct (getUser_cases ctx config h)
    as [(Hu & Hp & E) | [(_ & _ & E) | [(_ & _ & He' & E) | (_ & He' & E)]]].
  - destruct Hup; contradiction.
  - exact E.
  - contradiction.
  - contradiction.
Qed.

Lemma getUser_identity_email_witness :
  getUser Background
    (sampleConfig "" "" "e@x.com" (Some failingRetriever)) []
  = Done ("e@x.com", true, None) [].
Proof.
  apply (@getUser_identity_email Background
           (sampleConfig "" "" "e@x.com" (Some failingRetriever)) []).
  - left. reflexivity.
  - simpl. discriminate.
Defined.

(** X5. When [getUser] succeeds, the IAM flag is off exactly when both
    username and password are set; then the name is the configured username
    and no external call was made. *)
Theorem getUser_flag (ctx : Context) (config : engineConfig) (h h' : Trace)
  (u : string) (iam : bool) :
  getUser ctx config h = Done (u, iam, None) h' ->
  (iam = false <-> user config <> "" /\ password config <> "")
  /\ (iam = false -> u = user config /\ h' = h).
Proof.
  intros H.
  destruct (getUser_cases ctx config h)
    as [(Hu & Hp & E) | [(Hup & He & E) | [(Hu & Hp & He & E) | (Hup & He & E)]]];
    rewrite E in H.
  - inversion H; subst. split; [tauto |]. intros _. split; reflexivity.
  - inversion H; subst. split; [| discriminate].
    split; [discriminate |]. intros (Hu & Hp). destruct Hup; contradiction.
  - destruct (emailRetreiver config) as [f |]; [| discriminate].
    destruct (f ctx h) as [s [c |]]; [discriminate |].
    inversion H; subst. split; [| discriminate].
    split; [discriminate |]. intros (Hu' & _). contradiction.
  - discriminate.
Qed.

Lemma getUser_flag_witness :
  (true = false <-> "" <> "" /\ "" <> "")
  /\ (true = false ->
      "test-service-account-email@test.com" = ""
      /\ [EvEmailRetriever Background] = []).
Proof.
  exact (@getUser_flag Background (sampleConfig "" "" "" (Some sampleRetriever))
           [] [EvEmailRetriever Background]
           "test-service-account-email@test.com" true eq_refl).
Defined.

Section CreationProperties.

Variable X : Externals.
Variable ClientOption : Type.
Variable applyClientOptions : list ClientOption -> engineConfig * option error.

(** ** Pool construction and engine creation, beyond the cases above *)


(** The pool and the error of [createPool] are never both nil and never
    both set. *)
Lemma createPool_exclusive (ctx : Context) (cfg : engineConfig) (iam : bool)
  (h h' : Trace) (pool : option pgxpool_Pool) (e : option error) :
  createPool X ctx cfg iam h = Done (pool, e) h' ->
  (exists p, pool = Some p /\ e = None) \/ (pool = None /\ exists c, e = Some c).
Proof.
  unfold createPool, bind, call, ret.
  destruct (alloydbconn_NewDialer X h ctx (createPool_dialeropts iam)) as [d | c].
  - destruct (pgxpool_ParseConfig X _ (createPool_dsn cfg iam)) as [c |].
    + intros H. inversion H. right. split; [reflexivity |]. eexists. reflexivity.
    + destruct (pgxpool_NewWithConfig X _ ctx (createPool_dsn cfg iam)) as [id | c];
        intros H; inversion H.
      * left. eexists. split; reflexivity.
      * right. split; [reflexivity |]. eexists. reflexivity.
  - intros H. inversion H. right. split; [reflexivity |]. eexists. reflexivity.
Qed.

(** [NewPostgresEngine] once the options are applied and the identity is
    resolved, with a pre-supplied pool. *)
Lemma NewPostgresEngine_supplied_pool (ctx : Context) (opts : list ClientOption)
  (cfg : engineConfig) (h h1 : Trace) (u : string) (iam : bool)
  (p : pgxpool_Pool) :
  applyClientOptions opts = (cfg, None) ->
  connPool cfg = Some p ->
  getUser ctx cfg h = Done (u, iam, None) h1 ->
  NewPostgresEngine X applyClientOptions ctx opts h
  = Done (Some {| Pool := Some p |}, None) h1.
Proof.
  intros Ha Hc Hg. unfold NewPostgresEngine. rewrite Ha.
  unfold bind at 1. rewrite Hg. cbv beta iota.
  assert (Hc' : connPool (if iam then set_user cfg u else cfg) = Some p)
    by (destruct iam; exact Hc).
  rewrite Hc'. reflexivity.
Qed.

(** [NewPostgresEngine] when the identity does not resolve. *)
Lemma NewPostgresEngine_identity_error (ctx : Context)
  (opts : list ClientOption) (cfg : engineConfig) (h h1 : Trace) (u : string)
  (iam : bool) (e : error) :
  applyClientOptions opts = (cfg, None) ->
  getUser ctx cfg h = Done (u, iam, Some e) h1 ->
  NewPostgresEngine X applyClientOptions ctx opts h
  = Done (None, Some (fmt_Errorf "error assigning user. Err: %w" [AErr e])) h1.
Proof.
  intros Ha Hg. unfold NewPostgresEngine. rewrite Ha.
  unfold bind. rewrite Hg. reflexivity.
Qed.

(** [NewPostgresEngine] when identity resolution panics. *)
Lemma NewPostgresEngine_identity_panic (ctx : Context)
  (opts : list ClientOption) (cfg : engineConfig) (h h1 : Trace) (m : string) :
  applyClientOptions opts = (cfg, None) ->
  getUser ctx cfg h = Panic m h1 ->
  NewPostgresEngine X applyClientOptions ctx opts h = Panic m h1.
Proof.
  intros Ha Hg. unfold NewPostgresEngine. rewrite Ha.
  unfold bind. rewrite Hg. reflexivity.
Qed.

(** X7. For a configuration without a pre-supplied pool whose identity
    resolves, the first call after identity resolution creates the dialer,
    and it asks for IAM authentication exactly when username and password
    are not both set. *)
Theorem NewPostgresEngine_dialer_auth (ctx : Context) (opts : list ClientOption)
  (cfg : engineConfig) (h h1 : Trace) (u : string) (iam : bool) :
  applyClientOptions opts = (cfg, None) ->
  connPool cfg = None ->
  getUser ctx cfg h = Done (u, iam, None) h1 ->
  exists dialeropts t,
    traceOf (NewPostgresEngine X applyClientOptions ctx opts h)
    = (h1 ++ EvNewDialer ctx dialeropts :: t)%list
    /\ (dialeropts = [] <-> user cfg <> "" /\ password cfg <> "")
    /\ (dialeropts = [WithIAMAuthN] <-> user cfg = "" \/ password cfg = "").
Proof.
  intros Ha Hc Hg.
  assert (F : iam = false <-> user cfg <> "" /\ password cfg <> "").
  { destruct (getUser_cases ctx cfg h)
      as [(Hu & Hp & E) | [(Hup & He & E) | [(Hu & Hp & He & E) | (Hup & He & E)]]];
      rewrite E in Hg.
    - inversion Hg; subst. tauto.
    - inversion Hg; subst. split; [discriminate |].
      intros (Hu & Hp). destruct Hup; contradiction.
    - destruct (emailRetreiver cfg) as [f |]; [| discriminate].
      destruct (f ctx h) as [s [c |]]; [discriminate |].
      inversion Hg; subst. split; [discriminate |]. intros (Hu' & _). contradiction.
    - discriminate. }
  exists (createPool_dialeropts iam).
  rewrite (@NewPostgresEngine_createPool X ClientOption applyClientOptions
             ctx opts cfg h h1 u iam Ha Hc Hg).
  set (cfg' := if iam then set_user cfg u else cfg).
  assert (T : exists t,
             traceOf (createPool X ctx cfg' iam h1)
             = (h1 ++ EvNewDialer ctx (createPool_dialeropts iam) :: t)%list).
  { unfold createPool, bind, call, ret.
    destruct (alloydbconn_NewDialer X h1 ctx (createPool_dialeropts iam)) as [d | c].
    - destruct (pgxpool_ParseConfig X _ (createPool_dsn cfg' iam)) as [c |].
      + eexists. simpl. rewrite <- app_assoc. reflexivity.
      + destruct (pgxpool_NewWithConfig X _ ctx (createPool_dsn cfg' iam));
          eexists; simpl; rewrite <- !app_assoc; reflexivity.
    - eexists. reflexivity. }
  destruct T as (t & Ht). exists t.
  split.
  - rewrite <- Ht.
    destruct (createPool X ctx cfg' iam h1) as [[pool [e |]] h2 | m h2];
      reflexivity.
  - destruct iam; simpl.
    + split.
      * split; [discriminate |]. intros HH. apply F in HH. discriminate.
      * split; [| reflexivity]. intros _.
        destruct (String.string_dec (user cfg) "") as [Hu | Hu]; [now left |].
        destruct (String.string_dec (password cfg) "") as [Hp | Hp]; [now right |].
        assert (HF : true = false) by (apply F; split; assumption).
        discriminate.
    + split.
      * split; [| reflexivity]. intros _. now apply F.
      * split; [discriminate |]. intros [Hu | Hp];
          destruct (proj1 F eq_refl) as (Hu' & Hp'); contradiction.
Qed.

(** X8. Whenever [NewPostgresEngine] returns, a nil error comes with a
    non-nil engine that holds a pool, and an error comes with a nil engine
    or with an engine whose pool is nil: the error is nil exactly when the
    engine is usable. *)
Theorem NewPostgresEngine_result (ctx : Context) (opts : list ClientOption)
  (h h' : Trace) (eng : option PostgresEngine) (err : option error) :
  NewPostgresEngine X applyClientOptions ctx opts h = Done (eng, err) h' ->
  (err = None <-> exists pool, eng = Some {| Pool := Some pool |})
  /\ (err <> None -> eng = None \/ eng = Some {| Pool := None |}).
Proof.
  intros H.
  destruct (applyClientOptions opts) as [cfg [e |]] eqn:Ha.
  { unfold NewPostgresEngine in H. rewrite Ha in H. inversion H; subst.
    split; [| now left].
    split; [discriminate | intros (pool & Hp); discriminate]. }
  destruct (getUser ctx cfg h) as [[[u iam] [e |]] h1 | m h1] eqn:Hg.
  - rewrite (@NewPostgresEngine_identity_error ctx opts cfg h _ _ _ _ Ha Hg) in H.
    inversion H; subst. split; [| now left].
    split; [discriminate | intros (pool & Hp); discriminate].
  - destruct (connPool cfg) as [p |] eqn:Hc.
    + rewrite (@NewPostgresEngine_supplied_pool ctx opts cfg h _ _ _ _ Ha Hc Hg) in H.
      inversion H; subst. split; [| intros N; now contradiction N].
      split; [intros _; now exists p | reflexivity].
    + rewrite (@NewPostgresEngine_createPool X ClientOption applyClientOptions
                 ctx opts cfg h h1 u iam Ha Hc Hg) in H.
      destruct (createPool X ctx (if iam then set_user cfg u else cfg) iam h1)
        as [[pool e] h2 | m h2] eqn:Hp; [| discriminate].
      destruct (@createPool_exclusive _ _ _ _ _ _ _ Hp)
        as [(p & Hpool & He) | (Hpool & c & He)]; subst pool e.
      * inversion H; subst. split; [| intros N; now contradiction N].
        split; [intros _; now exists p | reflexivity].
      * inversion H; subst. split; [| now right].
        split; [discriminate | intros (pool & Hq); discriminate].
  - rewrite (@NewPostgresEngine_identity_panic ctx opts cfg h _ _ Ha Hg) in H.
    discriminate.
Qed.

(** X9. With a pre-supplied pool, a successful [NewPostgresEngine] returns
    an engine holding exactly that pool, and in every case its only
    possible external call is the e-mail retriever: no dialer is created, no
    descriptor parsed, no pool built. *)
Theorem NewPostgresEngine_supplied_pool_used (ctx : Context)
  (opts : list ClientOption) (cfg : engineConfig) (p : pgxpool_Pool)
  (h : Trace) :
  applyClientOptions opts = (cfg, None) ->
  connPool cfg = Some p ->
  (forall eng h',
      NewPostgresEngine X applyClientOptions ctx opts h = Done (eng, None) h' ->
      eng = Some {| Pool := Some p |})
  /\ (traceOf (NewPostgresEngine X applyClientOptions ctx opts h) = h
      \/ traceOf (NewPostgresEngine X applyClientOptions ctx opts h)
         = (h ++ [EvEmailRetriever ctx])%list).
Proof.
  intros Ha Hc.
  assert (T : traceOf (getUser ctx cfg h) = h
              \/ traceOf (getUser ctx cfg h) = (h ++ [EvEmailRetriever ctx])%list).
  { destruct (getUser_cases ctx cfg h)
      as [(_ & _ & E) | [(_ & _ & E) | [(_ & _ & _ & E) | (_ & _ & E)]]];
      rewrite E; try (now left).
    destruct (emailRetreiver cfg) as [f |]; [| now left].
    destruct (f ctx h) as [s [c |]]; now right. }
  destruct (getUser ctx cfg h) as [[[u iam] [e |]] h1 | m h1] eqn:Hg.
  - rewrite (@NewPostgresEngine_identity_error ctx opts cfg h _ _ _ _ Ha Hg).
    split; [intros eng h' H; discriminate | exact T].
  - rewrite (@NewPostgresEngine_supplied_pool ctx opts cfg h _ _ _ _ Ha Hc Hg).
    split; [intros eng h' H; now inversion H | exact T].
  - rewrite (@NewPostgresEngine_identity_panic ctx opts cfg h _ _ Ha Hg).
    split; [intros eng h' H; discriminate | exact T].
Qed.

(** X10. A configuration with only one of username and password and no
    identity e-mail makes [NewPostgresEngine] fail before any external call,
    with a nil engine and the error "error assigning user. Err: unable to
    retrieve a valid username": a pre-supplied pool does not bypass identity
    resolution. *)
Theorem NewPostgresEngine_partial_credentials (ctx : Context)
  (opts : list ClientOption) (cfg : engineConfig) (h : Trace) :
  applyClientOptions opts = (cfg, None) ->
  (user cfg <> "" /\ password cfg = "") \/ (user cfg = "" /\ password cfg <> "") ->
  iamAccountEmail cfg = "" ->
  exists e,
    NewPostgresEngine X applyClientOptions ctx opts h = Done (None, Some e) h
    /\ Error e = "error assigning user. Err: unable to retrieve a valid username"
    /\ Unwrap e = Some (errors_New "unable to retrieve a valid username").
Proof.
  intros Ha Hup He.
  assert (Hg : getUser ctx cfg h
               = Done ("", false,
                       Some (errors_New "unable to retrieve a valid username")) h).
  { destruct (getUser_cases ctx cfg h)
      as [(Hu & Hp & E) | [(_ & He' & E) | [(Hu & Hp & _ & E) | (_ & _ & E)]]].
    - destruct Hup as [[_ Hp'] | [Hu' _]]; contradiction.
    - contradiction.
    - destruct Hup as [[Hu' _] | [_ Hp']]; contradiction.
    - exact E. }
  eexists. split; [exact (@NewPostgresEngine_identity_error ctx opts cfg h _ _ _ _ Ha Hg) |].
  split; reflexivity.
Qed.

(** X11. When the retriever fails with [c] during engine creation, the
    error returned reads "error assigning user. Err: unable to retrieve
    service account email: " followed by the message of [c], and unwrapping
    it twice gives [c] back. *)
Theorem NewPostgresEngine_retrieval_error (ctx : Context)
  (opts : list ClientOption) (cfg : engineConfig) (f : EmailRetriever)
  (h : Trace) (s : string) (c : error) :
  applyClientOptions opts = (cfg, None) ->
  user cfg = "" -> password cfg = "" -> iamAccountEmail cfg = "" ->
  emailRetreiver cfg = Some f ->
  f ctx h = (s, Some c) ->
  exists e,
    NewPostgresEngine X applyClientOptions ctx opts h
    = Done (None, Some e) (h ++ [EvEmailRetriever ctx])%list
    /\ Error e
       = "error assigning user. Err: unable to retrieve service account email: "
         ++ Error c
    /\ unwrapChain 2 e
       = [e;
          fmt_Errorf "unable to retrieve service account email: %w" [AErr c];
          c].
Proof.
  intros Ha Hu Hp He Hf Hc.
  assert (Hg : getUser ctx cfg h
               = Done ("", false,
                       Some (fmt_Errorf
                               "unable to retrieve service account email: %w"
                               [AErr c]))
                      (h ++ [EvEmailRetriever ctx])%list).
  { destruct (getUser_cases ctx cfg h)
      as [(Hu' & _ & _) | [(_ & He' & _) | [(_ & _ & _ & E) | (Hup & _ & _)]]].
    - contradiction.
    - contradiction.
    - rewrite E, Hf, Hc. reflexivity.
    - destruct Hup as [[Hu' _] | [_ Hp']]; contradiction. }
  eexists. split; [exact (@NewPostgresEngine_identity_error ctx opts cfg h _ _ _ _ Ha Hg) |].
  split.
  - unfold fmt_Errorf, Error. string_eq.
  - simpl. destruct c as [m w]. reflexivity.
Qed.

(** X12. [NewPostgresEngine] panics exactly when the options apply,
    username, password and identity e-mail are all empty and there is no
    retriever; in every other case it returns. *)
Theorem NewPostgresEngine_panics_iff (ctx : Context) (opts : list ClientOption)
  (h : Trace) :
  panicked (NewPostgresEngine X applyClientOptions ctx opts h) = true
  <-> exists cfg,
        applyClientOptions opts = (cfg, None)
        /\ user cfg = "" /\ password cfg = "" /\ iamAccountEmail cfg = ""
        /\ emailRetreiver cfg = None.
Proof.
  destruct (applyClientOptions opts) as [cfg [e |]] eqn:Ha.
  { unfold NewPostgresEngine. rewrite Ha. simpl.
    split; [discriminate | intros (cfg' & H & _); discriminate]. }
  assert (P : panicked (NewPostgresEngine X applyClientOptions ctx opts h)
              = panicked (getUser ctx cfg h)).
  { destruct (getUser ctx cfg h) as [[[u iam] [e |]] h1 | m h1] eqn:Hg.
    - now rewrite (@NewPostgresEngine_identity_error ctx opts cfg h _ _ _ _ Ha Hg).
    - destruct (connPool cfg) as [p |] eqn:Hc.
      + now rewrite (@NewPostgresEngine_supplied_pool ctx opts cfg h _ _ _ _ Ha Hc Hg).
      + rewrite (@NewPostgresEngine_createPool X ClientOption applyClientOptions
                   ctx opts cfg h h1 u iam Ha Hc Hg).
        pose proof (@createPool_no_panic X ctx
                      (if iam then set_user cfg u else cfg) iam h1) as NP.
        destruct (createPool X ctx (if iam then set_user cfg u else cfg) iam h1)
          as [[pool [e |]] h2 | m h2]; [reflexivity | reflexivity | discriminate].
    - now rewrite (@NewPostgresEngine_identity_panic ctx opts cfg h _ _ Ha Hg). }
  rewrite P.
  destruct (getUser_cases ctx cfg h)
    as [(Hu & Hp & E) | [(Hup & He & E) | [(Hu & Hp & He & E) | (Hup & He & E)]]];
    rewrite E.
  - simpl. split; [discriminate |].
    intros (cfg' & H & Hu' & _). inversion H; subst. contradiction.
  - simpl. split; [discriminate |].
    intros (cfg' & H & _ & _ & He' & _). inversion H; subst. contradiction.
  - destruct (emailRetreiver cfg) as [f |] eqn:Hf.
    + destruct (f ctx h) as [s [c |]]; simpl; (split; [discriminate |]);
        intros (cfg' & H & _ & _ & _ & Hn); inversion H; subst;
        rewrite Hf in Hn; discriminate.
    + simpl. split; [| reflexivity]. intros _. exists cfg.
      repeat (split; [reflexivity || assumption |]). assumption.
  - simpl. split; [discriminate |].
    intros (cfg' & H & Hu' & Hp' & _). inversion H; subst.
    destruct Hup as [[Hu'' _] | [_ Hp'']]; contradiction.
Qed.

(** X13. When the options fail to apply or the identity fails to resolve,
    the engine returned is nil, so calling [Close] on what
    [NewPostgresEngine] returned panics instead of being a no-op. *)
Theorem Close_after_failed_creation (ctx : Context) (opts : list ClientOption)
  (cfg : engineConfig) (h : Trace) :
  (exists e, applyClientOptions opts = (cfg, Some e))
  \/ (applyClientOptions opts = (cfg, None)
      /\ exists u iam e h1, getUser ctx cfg h = Done (u, iam, Some e) h1) ->
  exists h',
    (r <- NewPostgresEngine X applyClientOptions ctx opts ;; Close (fst r)) h
    = Panic nilDeref h'.
Proof.
  intros [(e & Ha) | (Ha & u & iam & e & h1 & Hg)].
  - exists h. unfold bind, NewPostgresEngine. rewrite Ha. reflexivity.
  - exists h1. unfold bind at 1.
    rewrite (@NewPostgresEngine_identity_error ctx opts cfg h _ _ _ _ Ha Hg). reflexivity.
Qed.

End CreationProperties.

(** ** Closing, beyond the cases above *)

Lemma poolClosed_app (id : PoolId) (h1 h2 : Trace) :
  poolClosed id (h1 ++ h2)%list = poolClosed id h1 || poolClosed id h2.
Proof.
  induction h1 as [| ev h1 IH]; simpl; [reflexivity |].
  destruct ev; simpl; try exact IH. now rewrite IH, orb_assoc.
Qed.

Lemma statements_app (h1 h2 : Trace) :
  statements (h1 ++ h2)%list = (statements h1 ++ statements h2)%list.
Proof.
  induction h1 as [| ev h1 IH]; simpl; [reflexivity |].
  destruct ev; simpl; try exact IH. now rewrite IH.
Qed.

(** X14. [Close] on an engine that holds a pool closes that pool and no
    other, runs no SQL statement and does not call the retriever. *)
Theorem Close_closes_own_pool (e : PostgresEngine) (pool : pgxpool_Pool)
  (h : Trace) :
  Pool e = Some pool ->
  poolClosed (poolId pool) (traceOf (Close (Some e) h)) = true
  /\ (forall id, id <> poolId pool ->
                 poolClosed id (traceOf (Close (Some e) h)) = poolClosed id h)
  /\ statements (traceOf (Close (Some e) h)) = statements h
  /\ retrieverCalls (traceOf (Close (Some e) h)) = retrieverCalls h.
Proof.
  intros Hp. unfold Close, call. rewrite Hp. simpl.
  split; [| split; [| split]].
  - rewrite poolClosed_app. simpl. rewrite Nat.eqb_refl. simpl. apply orb_true_r.
  - intros id Hid. rewrite poolClosed_app. simpl.
    apply Nat.eqb_neq in Hid. rewrite Hid. simpl. apply orb_false_r.
  - rewrite statements_app. simpl. apply app_nil_r.
  - rewrite retrieverCalls_app. simpl. lia.
Qed.

Section MoreProvisioningProperties.

Variable X : Externals.

(** ** Table provisioning, beyond the cases above *)

(** X15. On a nil engine, and on an engine whose pool is nil (such as the
    one [NewPostgresEngine] returns when the pool cannot be built), both
    provisioning methods panic before any statement is sent. *)
Theorem provisioning_nil_pool (p : option PostgresEngine) (ctx : Context)
  (o : VectorstoreTableOptions) (cols : list Column) (idc : Column)
  (overwrite sm : bool) (tableName schemaName : string) (h : Trace) :
  p = None \/ p = Some {| Pool := None |} ->
  InitVectorstoreTable X p ctx o cols idc overwrite sm h = Panic nilDeref h
  /\ InitChatHistoryTable X p ctx tableName schemaName h = Panic nilDeref h.
Proof.
  intros [Hp | Hp]; subst p; split; reflexivity.
Qed.

(** X16. When [InitVectorstoreTable] returns an error, the statement that
    failed is the last one sent and none follows it; the message names the
    stage (create extension, drop table, create table) followed by the text
    of the database error, and the error wraps nothing: the database error
    cannot be recovered by unwrapping. *)
Theorem InitVectorstoreTable_error_stage (pool : pgxpool_Pool) (ctx : Context)
  (o : VectorstoreTableOptions) (cols : list Column) (idc : Column)
  (overwrite sm : bool) (h h' : Trace) (e : error) :
  let ext := "CREATE EXTENSION IF NOT EXISTS vector" in
  let drop := dropTableQuery o in
  let create := createTableQuery o cols idc sm in
  let sent := fun l => (h ++ map (EvExec (poolId pool) ctx) l)%list in
  InitVectorstoreTable X (Some {| Pool := Some pool |}) ctx o cols idc
    overwrite sm h = Done (Some e) h' ->
  Unwrap e = None
  /\ exists cause,
       (Error e = "failed to create extension: " ++ Error cause
        /\ h' = sent [ext]
        /\ Pool_Exec X h (poolId pool) ctx ext = Some cause)
       \/ (overwrite = true
           /\ Error e = "failed to drop table: " ++ Error cause
           /\ h' = sent [ext; drop]
           /\ Pool_Exec X (sent [ext]) (poolId pool) ctx drop = Some cause)
       \/ (Error e = "failed to create table: " ++ Error cause
           /\ h' = sent (if overwrite then [ext; drop; create] else [ext; create])
           /\ Pool_Exec X (sent (if overwrite then [ext; drop] else [ext]))
                (poolId pool) ctx create = Some cause).
Proof.
  intros ext drop create sent.
  unfold InitVectorstoreTable, poolExec, bind, call, ret. simpl.
  fold ext. fold drop. fold create.
  destruct (Pool_Exec X h (poolId pool) ctx ext) as [c1 |] eqn:E1.
  { intros H. inversion H; subst. split; [reflexivity |]. exists c1. left.
    split; [simpl; now rewrite append_nil_r |]. split; reflexivity. }
  destruct overwrite.
  - destruct (Pool_Exec X (h ++ [EvExec (poolId pool) ctx ext])%list
                (poolId pool) ctx drop) as [c2 |] eqn:E2.
    { intros H. inversion H; subst. split; [reflexivity |]. exists c2.
      right. left. split; [reflexivity |].
      split; [simpl; now rewrite append_nil_r |].
      unfold sent. simpl. rewrite <- ?app_assoc. simpl.
      split; [reflexivity | exact E2]. }
    destruct (Pool_Exec X ((h ++ [EvExec (poolId pool) ctx ext])
                           ++ [EvExec (poolId pool) ctx drop])%list
                (poolId pool) ctx create) as [c3 |] eqn:E3; [| discriminate].
    intros H. inversion H; subst. split; [reflexivity |]. exists c3.
    right. right. split; [simpl; now rewrite append_nil_r |].
    rewrite <- app_assoc in E3. simpl in E3.
    unfold sent. simpl. rewrite <- ?app_assoc. simpl.
    split; [reflexivity | exact E3].
  - destruct (Pool_Exec X (h ++ [EvExec (poolId pool) ctx ext])%list
                (poolId pool) ctx create) as [c3 |] eqn:E3; [| discriminate].
    intros H. inversion H; subst. split; [reflexivity |]. exists c3.
    right. right. split; [simpl; now rewrite append_nil_r |].
    unfold sent. simpl. rewrite <- ?app_assoc. simpl.
    split; [reflexivity | exact E3].
Qed.

End MoreProvisioningProperties.

(** The layout of the CREATE TABLE statement. *)
Lemma createTableQuery_layout (o : VectorstoreTableOptions)
  (cols : list Column) (idc : Column) (sm : bool) :
  createTableQuery o cols idc sm
  = "CREATE TABLE " ++ quoted (SchemaName o) ++ "." ++ quoted (TableName o)
    ++ " (" ++ LF ++ TAB ++ TAB ++ idColumnDef (defaultIdColumn idc) ++ ","
    ++ LF ++ TAB ++ TAB ++ contentColumnDef o ++ ","
    ++ LF ++ TAB ++ TAB ++ embeddingColumnDef o
    ++ concatAll (map (fun d => ", " ++ d)
                      (map metadataColumnDef cols
                       ++ (if sm then [jsonColumnDef o] else [])))
    ++ ");".
Proof.
  unfold createTableQuery.
  rewrite fold_addMetadataColumn, map_app, concatAll_app.
  unfold idColumnDef, contentColumnDef, embeddingColumnDef, jsonColumnDef,
    quoted.
  destruct sm; string_eq.
Qed.

(** X17. The nullability of the id column is not used: the statement, and
    so the whole of [InitVectorstoreTable], is the same for a nullable and a
    non-nullable id column.  After defaulting, the id column never has an
    empty name or an empty type. *)
Theorem idColumn_nullable_ignored (X : Externals) (p : option PostgresEngine)
  (ctx : Context) (o : VectorstoreTableOptions) (cols : list Column)
  (n t : string) (b1 b2 overwrite sm : bool) (h : Trace) :
  InitVectorstoreTable X p ctx o cols
    {| Name := n; DataType := t; Nullable := b1 |} overwrite sm h
  = InitVectorstoreTable X p ctx o cols
      {| Name := n; DataType := t; Nullable := b2 |} overwrite sm h
  /\ Name (defaultIdColumn {| Name := n; DataType := t; Nullable := b1 |}) <> ""
  /\ DataType (defaultIdColumn {| Name := n; DataType := t; Nullable := b1 |}) <> "".
Proof.
  split; [| split].
  - assert (Q : createTableQuery o cols
                  {| Name := n; DataType := t; Nullable := b1 |} sm
                = createTableQuery o cols
                    {| Name := n; DataType := t; Nullable := b2 |} sm).
    { rewrite !createTableQuery_layout. unfold defaultIdColumn, idColumnDef.
      simpl. destruct (String.eqb n ""); simpl;
        destruct (String.eqb t ""); reflexivity. }
    unfold InitVectorstoreTable. rewrite Q. reflexivity.
  - unfold defaultIdColumn. simpl.
    destruct (String.eqb_spec n ""); simpl;
      destruct (String.eqb_spec t ""); simpl; congruence || discriminate.
  - unfold defaultIdColumn. simpl.
    destruct (String.eqb_spec n ""); simpl;
      destruct (String.eqb_spec t ""); simpl; congruence || discriminate.
Qed.

(** ** Table options, beyond the cases above *)

Lemma nonEmpty_iff (s : string) : nonEmpty s = true <-> s <> "".
Proof.
  unfold nonEmpty. destruct (String.eqb_spec s ""); simpl;
    split; congruence || discriminate.
Qed.

(** The defaulting of one name gives a non-empty name. *)
Lemma default_nonEmpty (s d : string) :
  d <> "" -> nonEmpty (if nonEmpty s then s else d) = true.
Proof.
  intros Hd. destruct (nonEmpty s) eqn:Hs; [exact Hs | now apply nonEmpty_iff].
Qed.

(** X18. Options that [NewVectorstoreTableOptions] returned without error
    are a fixed point: passing them through it again returns the same
    options, again without error. *)
Theorem NewVectorstoreTableOptions_idempotent (opts r : VectorstoreTableOptions)
  (h : Trace) :
  NewVectorstoreTableOptions (Some opts) h = Done (r, None) h ->
  NewVectorstoreTableOptions (Some r) h = Done (r, None) h.
Proof.
  unfold NewVectorstoreTableOptions, ret.
  destruct (String.eqb (TableName opts) "") eqn:Ht; [discriminate |].
  destruct (Z.eqb (VectorSize opts) 0) eqn:Hv; [discriminate |].
  intros H. inversion H as [Hr]. simpl. rewrite Ht, Hv.
  rewrite !default_nonEmpty by discriminate. reflexivity.
Qed.

(** X19. Options returned without error have no empty part: the table
    name, the schema name and the three column names are non-empty and the
    vector size is not 0.  Options returned with an error are the zero
    value. *)
Theorem NewVectorstoreTableOptions_complete (opts r : VectorstoreTableOptions)
  (e : option error) (h h' : Trace) :
  NewVectorstoreTableOptions (Some opts) h = Done (r, e) h' ->
  match e with
  | None =>
      TableName r <> "" /\ VectorSize r <> 0%Z /\ SchemaName r <> ""
      /\ ContentColumnName r <> "" /\ EmbeddingColumn r <> ""
      /\ MetadataJsonColumn r <> ""
  | Some _ => r = zeroVectorstoreTableOptions
  end.
Proof.
  unfold NewVectorstoreTableOptions, ret.
  destruct (String.eqb_spec (TableName opts) "") as [Ht | Ht].
  { intros H. now inversion H. }
  destruct (Z.eqb_spec (VectorSize opts) 0) as [Hv | Hv].
  { intros H. now inversion H. }
  intros H. inversion H. simpl.
  split; [exact Ht |]. split; [exact Hv |].
  repeat split; apply nonEmpty_iff; apply default_nonEmpty; discriminate.
Qed.

Lemma Contains_app_l (s t sub : string) :
  Contains s sub -> Contains (s ++ t) sub.
Proof.
  intros (pre & post & H). exists pre, (post ++ t).
  now rewrite H, !append_assoc.
Qed.

Lemma Contains_app_r (s t sub : string) :
  Contains t sub -> Contains (s ++ t) sub.
Proof.
  intros (pre & post & H). exists (s ++ pre), post.
  now rewrite H, !append_assoc.
Qed.

(** [strconv.Itoa] of a negative int starts with the minus sign. *)
Lemma Itoa_negative (z : Z) : (z < 0)%Z -> exists s, Itoa z = "-" ++ s.
Proof.
  destruct z as [| p | p]; try lia. intros _.
  eexists. unfold Itoa. simpl. reflexivity.
Qed.

(** X20. Only the vector size 0 is rejected: with a table name, every
    negative size passes [NewVectorstoreTableOptions] unchanged, and the
    CREATE TABLE statement then declares a vector of negative dimension. *)
Theorem negative_vector_size_accepted (opts : VectorstoreTableOptions)
  (cols : list Column) (idc : Column) (sm : bool) (h : Trace) :
  TableName opts <> "" -> (VectorSize opts < 0)%Z ->
  exists r,
    NewVectorstoreTableOptions (Some opts) h = Done (r, None) h
    /\ VectorSize r = VectorSize opts
    /\ Contains (createTableQuery r cols idc sm) "vector(-".
Proof.
  intros Ht Hv. unfold NewVectorstoreTableOptions, ret.
  apply String.eqb_neq in Ht. rewrite Ht.
  assert (Hz : Z.eqb (VectorSize opts) 0 = false) by (apply Z.eqb_neq; lia).
  rewrite Hz. eexists. split; [reflexivity |]. split; [reflexivity |].
  rewrite createTableQuery_layout. unfold embeddingColumnDef. simpl VectorSize.
  destruct (Itoa_negative Hv) as (s & Hs). rewrite Hs.
  do 18 apply Contains_app_r. apply Contains_app_l. apply Contains_app_r.
  exists " ", (s ++ ") NOT NULL"). reflexivity.
Qed.

(** ** Interpolation without quoting *)

(** X21. The descriptor does not quote its values: a resolved name that
    contains a space and [password=] yields, in IAM mode, the very
    descriptor that the name before the space and that password yield
    without IAM. *)
Theorem createPool_dsn_not_quoted (cfg1 cfg2 : engineConfig) :
  user cfg1 = user cfg2 ++ " password=" ++ password cfg2 ->
  database cfg1 = database cfg2 ->
  createPool_dsn cfg1 true = createPool_dsn cfg2 false.
Proof.
  intros Hu Hd. unfold createPool_dsn. rewrite Hu, Hd. string_eq.
Qed.

(** X22. Identifiers are put between double quotes without escaping: a
    double quote inside a name ends the identifier, so the table [a"."b] of
    schema [s] and the table [b] of schema [s"."a] give the same
    chat-history, DROP TABLE and CREATE TABLE statements. *)
Theorem identifiers_not_escaped (s a b : string) (v : Z) (c e m : string)
  (cols : list Column) (idc : Column) (sm : bool) :
  let o1 := {| TableName := a ++ DQ ++ "." ++ DQ ++ b; VectorSize := v;
               SchemaName := s; ContentColumnName := c;
               EmbeddingColumn := e; MetadataJsonColumn := m |} in
  let o2 := {| TableName := b; VectorSize := v;
               SchemaName := s ++ DQ ++ "." ++ DQ ++ a; ContentColumnName := c;
               EmbeddingColumn := e; MetadataJsonColumn := m |} in
  chatHistoryQuery (a ++ DQ ++ "." ++ DQ ++ b) s
  = chatHistoryQuery b (s ++ DQ ++ "." ++ DQ ++ a)
  /\ dropTableQuery o1 = dropTableQuery o2
  /\ createTableQuery o1 cols idc sm = createTableQuery o2 cols idc sm.
Proof.
  intros o1 o2. split; [| split].
  - unfold chatHistoryQuery. string_eq.
  - unfold dropTableQuery, o1, o2. string_eq.
  - rewrite !createTableQuery_layout.
    unfold o1, o2, quoted, contentColumnDef, embeddingColumnDef, jsonColumnDef.
    simpl. rewrite !append_assoc. simpl. reflexivity.
Qed.

(** ** The default retriever *)


(** X24. With the default retriever and nothing else configured, the
    identity that [getUser] resolves is the e-mail of the user info, in IAM
    mode; and credentials without a token source make it fail with exactly
    "unable to retrieve service account email: missing or invalid
    credentials". *)
Theorem getUser_default_retriever (G : GoogleExternals) (ctx : Context)
  (config : engineConfig) (h : Trace) :
  user config = "" -> password config = "" -> iamAccountEmail config = "" ->
  emailRetreiver config = Some (getServiceAccountEmail G) ->
  (forall cr ts svc info,
      google_FindDefaultCredentials G h [] ctx [emailScope] = inl cr ->
      TokenSource cr = Some ts ->
      oauth2_NewService G h [CallFindDefaultCredentials ctx [emailScope]] ctx ts
      = inl svc ->
      Userinfo_Get_Do G h [CallFindDefaultCredentials ctx [emailScope];
                           CallNewService ctx ts] svc = inl info ->
      getUser ctx config h
      = Done (Email info, true, None) (h ++ [EvEmailRetriever ctx])%list)
  /\ (forall cr,
        google_FindDefaultCredentials G h [] ctx [emailScope] = inl cr ->
        TokenSource cr = None ->
        exists e,
          getUser ctx config h
          = Done ("", false, Some e) (h ++ [EvEmailRetriever ctx])%list
          /\ Error e
             = "unable to retrieve service account email: missing or invalid credentials").
Proof.
  intros Hu Hp He Hf.
  assert (E : getUser ctx config h
              = match getServiceAccountEmail G ctx h with
                | (_, Some c) =>
                    Done ("", false,
                          Some (fmt_Errorf
                                  "unable to retrieve service account email: %w"
                                  [AErr c]))
                         (h ++ [EvEmailRetriever ctx])%list
                | (s, None) =>
                    Done (s, true, None) (h ++ [EvEmailRetriever ctx])%list
                end).
  { destruct (getUser_cases ctx config h)
      as [(Hu' & _ & _) | [(_ & He' & _) | [(_ & _ & _ & E) | (Hup & _ & _)]]].
    - contradiction.
    - contradiction.
    - rewrite E, Hf. reflexivity.
    - destruct Hup as [[Hu' _] | [_ Hp']]; contradiction. }
  split.
  - intros cr ts svc info H1 H2 H3 H4. rewrite E.
    unfold getServiceAccountEmail, getServiceAccountEmail_run.
    rewrite H1, H2, H3. simpl. rewrite H4. reflexivity.
  - intros cr H1 H2. rewrite E.
    unfold getServiceAccountEmail, getServiceAccountEmail_run.
    rewrite H1, H2. simpl. eexists. split; reflexivity.
Qed.

(** ** The checks of the tests *)

Lemma prefix_refl (s : string) : String.prefix s s = true.
Proof.
  induction s as [| c s IH]; simpl; [reflexivity |].
  destruct (Ascii.ascii_dec c c) as [_ | N]; [exact IH | now contradiction N].
Qed.

Lemma strings_Contains_refl (s : string) : strings_Contains s s = true.
Proof.
  destruct s as [| c s]; [reflexivity |].
  unfold strings_Contains; fold strings_Contains.
  now rewrite prefix_refl.
Qed.

(** X25. A subtest of TestValidateTable never calls a method of the chat
    history.  It passes only when creating the history failed with exactly
    the expected message; when the history is created (a nil error) it
    stops in [t.Fatalf] if an error was expected and panics on
    [err.Error()] otherwise. *)
Theorem validateTableCase_outcome (tcErr : string) (err : option error)
  (answer : HistoryMethod -> option error) :
  snd (validateTableCase tcErr err answer) = []
  /\ (fst (validateTableCase tcErr err answer) = VPass
      <-> exists e, err = Some e /\ Error e = tcErr)
  /\ (err = None ->
      fst (validateTableCase tcErr err answer)
      = if nonEmpty tcErr
        then VFatalfErr "unexpected error: got %q, want %q" None tcErr
        else VPanic nilDeref).
Proof.
  unfold validateTableCase.
  destruct err as [e |].
  - destruct (String.eqb_spec (Error e) tcErr) as [Heq | Hne].
    + rewrite Heq, strings_Contains_refl. simpl. rewrite andb_false_r.
      split; [reflexivity |]. split; [| discriminate].
      split; [intros _; now exists e | reflexivity].
    + destruct (nonEmpty tcErr && negb (strings_Contains (Error e) tcErr));
        simpl.
      * split; [reflexivity |]. split; [| discriminate].
        split; [discriminate |]. intros (e' & H & H'). inversion H; subst.
        contradiction.
      * split; [reflexivity |]. split; [| discriminate].
        split; [discriminate |]. intros (e' & H & H'). inversion H; subst.
        contradiction.
  - rewrite andb_true_r. destruct (nonEmpty tcErr); simpl;
      (split; [reflexivity |]); (split; [| reflexivity]);
      (split; [discriminate | intros (e' & H & _); discriminate]).
Qed.

(** X26. A subtest of TestGetUser that expects an error reports nothing
    when [getUser] returns no error at all, whatever name and flag it
    returns: the table cannot detect a missing error. *)
Theorem getUserCase_accepts_missing_error (tc : getUserTestCase)
  (h h' : Trace) (u : string) (iam : bool) :
  expectedErr tc <> "" ->
  getUser Background (tcEngineConfig tc) h = Done (u, iam, None) h' ->
  getUserCase tc h = Done [] h'.
Proof.
  intros He Hg. unfold getUserCase, bind. rewrite Hg. simpl.
  now rewrite (nonEmpty_true He).
Qed.

(** ** The further properties at concrete inputs *)

Lemma NewPostgresEngine_dialer_auth_witness :
  exists dialeropts t,
    traceOf (NewPostgresEngine sampleExternals sampleApply Background
               [("", "")] [])
    = ([EvEmailRetriever Background]
       ++ EvNewDialer Background dialeropts :: t)%list
    /\ (dialeropts = [] <-> "" <> "" /\ "" <> "")
    /\ (dialeropts = [WithIAMAuthN] <-> "" = "" \/ "" = "").
Proof.
  exact (@NewPostgresEngine_dialer_auth sampleExternals _ sampleApply Background
           [("", "")] (sampleConfig "" "" "" (Some sampleRetriever))
           [] [EvEmailRetriever Background]
           "test-service-account-email@test.com" true
           eq_refl eq_refl eq_refl).
Defined.

Lemma NewPostgresEngine_result_witness :
  (@None error = None
   <-> exists pool,
         Some {| Pool := Some samplePool |} = Some {| Pool := Some pool |})
  /\ (@None error <> None ->
      Some {| Pool := Some samplePool |} = None
      \/ Some {| Pool := Some samplePool |} = Some {| Pool := None |}).
Proof.
  exact (@NewPostgresEngine_result sampleExternals _ suppliedApply Background
           [("testUser", "testPass")] [] []
           (Some {| Pool := Some samplePool |}) None eq_refl).
Defined.

Lemma NewPostgresEngine_supplied_pool_used_witness :
  Some {| Pool := Some samplePool |} = Some {| Pool := Some samplePool |}
  /\ (traceOf (NewPostgresEngine refusingExternals suppliedApply Background
                 [("testUser", "testPass")] []) = []
      \/ traceOf (NewPostgresEngine refusingExternals suppliedApply Background
                    [("testUser", "testPass")] [])
         = ([] ++ [EvEmailRetriever Background])%list).
Proof.
  destruct (@NewPostgresEngine_supplied_pool_used refusingExternals _
              suppliedApply Background [("testUser", "testPass")]
              (fst (suppliedApply [("testUser", "testPass")])) samplePool []
              eq_refl eq_refl) as (H & T).
  split; [| exact T].
  exact (H (Some {| Pool := Some samplePool |}) [] eq_refl).
Defined.

Lemma NewPostgresEngine_partial_credentials_witness :
  exists e,
    NewPostgresEngine sampleExternals suppliedApply Background
      [("testUser", "")] []
    = Done (None, Some e) []
    /\ Error e = "error assigning user. Err: unable to retrieve a valid username"
    /\ Unwrap e = Some (errors_New "unable to retrieve a valid username").
Proof.
  apply (@NewPostgresEngine_partial_credentials sampleExternals _ suppliedApply
           Background [("testUser", "")]
           (fst (suppliedApply [("testUser", "")])) []).
  - reflexivity.
  - left. split; [simpl; discriminate | reflexivity].
  - reflexivity.
Defined.

Lemma NewPostgresEngine_retrieval_error_witness :
  exists e,
    NewPostgresEngine sampleExternals failingRetrieverApply Background [] []
    = Done (None, Some e) [EvEmailRetriever Background]
    /\ Error e
       = "error assigning user. Err: unable to retrieve service account email: missing or invalid credentials".
Proof.
  destruct (@NewPostgresEngine_retrieval_error sampleExternals _
              failingRetrieverApply Background []
              (sampleConfig "" "" "" (Some failingRetriever)) failingRetriever
              [] "" (errors_New "missing or invalid credentials")
              eq_refl eq_refl eq_refl eq_refl eq_refl eq_refl)
    as (e & H1 & H2 & _).
  exists e. split; [exact H1 | exact H2].
Defined.

Lemma Close_after_failed_creation_witness :
  exists h',
    (r <- NewPostgresEngine sampleExternals sampleApply Background
            [("testUser", "")] ;;
     Close (fst r)) []
    = Panic nilDeref h'.
Proof.
  apply (@Close_after_failed_creation sampleExternals _ sampleApply Background
           [("testUser", "")]
           (sampleConfig "testUser" "" "" (Some sampleRetriever)) []).
  right. split; [reflexivity |].
  exists "", false, (errors_New "unable to retrieve a valid username"), [].
  reflexivity.
Defined.

Lemma Close_closes_own_pool_witness :
  poolClosed 7 (traceOf (Close (Some {| Pool := Some samplePool |})
                           [EvPoolClose 3])) = true.
Proof.
  apply (@Close_closes_own_pool {| Pool := Some samplePool |} samplePool
           [EvPoolClose 3] eq_refl).
Defined.

Lemma provisioning_nil_pool_witness :
  InitVectorstoreTable sampleExternals (Some {| Pool := None |}) Background
    sampleOptions [] emptyIdColumn true true []
  = Panic nilDeref []
  /\ InitChatHistoryTable sampleExternals (Some {| Pool := None |}) Background
       "items" "public" []
     = Panic nilDeref [].
Proof.
  apply (@provisioning_nil_pool sampleExternals (Some {| Pool := None |})
           Background sampleOptions [] emptyIdColumn true true
           "items" "public" []).
  right. reflexivity.
Defined.

Lemma InitVectorstoreTable_error_stage_witness :
  Unwrap (fmt_Errorf "failed to create table: %v"
            [AErr (errors_New "relation already exists")]) = None.
Proof.
  apply (@InitVectorstoreTable_error_stage catalogExternals samplePool
           Background defaultedOptions [] emptyIdColumn false false
           [EvExec 7 Background
              (createTableQuery defaultedOptions [] emptyIdColumn false)]
           [EvExec 7 Background
              (createTableQuery defaultedOptions [] emptyIdColumn false);
            EvExec 7 Background "CREATE EXTENSION IF NOT EXISTS vector";
            EvExec 7 Background
              (createTableQuery defaultedOptions [] emptyIdColumn false)]
           (fmt_Errorf "failed to create table: %v"
              [AErr (errors_New "relation already exists")])).
  reflexivity.
Defined.

Lemma NewVectorstoreTableOptions_idempotent_witness :
  NewVectorstoreTableOptions
    (Some {| TableName := "items"; VectorSize := 128; SchemaName := "public";
             ContentColumnName := "content"; EmbeddingColumn := "vec";
             MetadataJsonColumn := "langchain_metadata" |}) []
  = Done ({| TableName := "items"; VectorSize := 128; SchemaName := "public";
             ContentColumnName := "content"; EmbeddingColumn := "vec";
             MetadataJsonColumn := "langchain_metadata" |}, None) [].
Proof.
  apply (@NewVectorstoreTableOptions_idempotent sampleOptions _ []).
  reflexivity.
Defined.

Lemma NewVectorstoreTableOptions_complete_witness :
  TableName defaultedOptions <> "" /\ VectorSize defaultedOptions <> 0%Z
  /\ SchemaName defaultedOptions <> ""
  /\ ContentColumnName defaultedOptions <> ""
  /\ EmbeddingColumn defaultedOptions <> ""
  /\ MetadataJsonColumn defaultedOptions <> "".
Proof.
  exact (@NewVectorstoreTableOptions_complete sampleOptions defaultedOptions
           None [] [] eq_refl).
Defined.

Lemma negative_vector_size_accepted_witness :
  exists r,
    NewVectorstoreTableOptions (Some negativeOptions) [] = Done (r, None) []
    /\ VectorSize r = (-3)%Z
    /\ Contains (createTableQuery r [] emptyIdColumn false) "vector(-".
Proof.
  apply (@negative_vector_size_accepted negativeOptions [] emptyIdColumn false []).
  - simpl. discriminate.
  - simpl. lia.
Defined.

Lemma createPool_dsn_not_quoted_witness :
  createPool_dsn (sampleConfig "x password=y" "" "" None) true
  = createPool_dsn (sampleConfig "x" "y" "" None) false.
Proof.
  apply (@createPool_dsn_not_quoted (sampleConfig "x password=y" "" "" None)
           (sampleConfig "x" "y" "" None));
    reflexivity.
Defined.

Lemma getUser_default_retriever_witness :
  getUser Background
    (sampleConfig "" "" "" (Some (getServiceAccountEmail sampleGoogle))) []
  = Done ("sa@project.iam", true, None) [EvEmailRetriever Background]
  /\ exists e,
       getUser Background
         (sampleConfig "" "" "" (Some (getServiceAccountEmail noTokenGoogle))) []
       = Done ("", false, Some e) [EvEmailRetriever Background]
       /\ Error e
          = "unable to retrieve service account email: missing or invalid credentials".
Proof.
  split.
  - destruct (@getUser_default_retriever sampleGoogle Background
                (sampleConfig "" "" ""
                   (Some (getServiceAccountEmail sampleGoogle))) []
                eq_refl eq_refl eq_refl eq_refl) as (H & _).
    exact (H {| TokenSource := Some 5 |} 5 1 {| Email := "sa@project.iam" |}
             eq_refl eq_refl eq_refl eq_refl).
  - destruct (@getUser_default_retriever noTokenGoogle Background
                (sampleConfig "" "" ""
                   (Some (getServiceAccountEmail noTokenGoogle))) []
                eq_refl eq_refl eq_refl eq_refl) as (_ & H).
    exact (H {| TokenSource := None |} eq_refl eq_refl).
Defined.

Lemma validateTableCase_outcome_witness :
  fst (validateTableCase "" None (fun _ => None)) = VPanic nilDeref.
Proof.
  destruct (validateTableCase_outcome "" None (fun _ => None)) as (_ & _ & H).
  exact (H eq_refl).
Defined.

Lemma getUserCase_accepts_missing_error_witness :
  getUserCase
    {| tcEngineConfig := sampleConfig "testUser" "testPass" "" None;
       expectedErr := "unable to retrieve a valid username";
       expectedUserName := ""; expectedIAMAuth := false |} []
  = Done [] [].
Proof.
  apply (@getUserCase_accepts_missing_error
           {| tcEngineConfig := sampleConfig "testUser" "testPass" "" None;
              expectedErr := "unable to retrieve a valid username";
              expectedUserName := ""; expectedIAMAuth := false |}
           [] [] "testUser" false).
  - simpl. discriminate.
  - reflexivity.
Defined.

(** The six rows of TestGetUser report nothing on [getUser]. *)
Example TestGetUser_table_passes :
  forallb (fun tc =>
             match getUserCase tc [] with
             | Done [] _ => true
             | _ => false
             end) getUserTestTable
  = true.
Proof. reflexivity. Qed.

(** The default retriever stops after the credentials when they carry no
    token source, and makes its three calls otherwise. *)
Example getServiceAccountEmail_runs :
  fst (getServiceAccountEmail_run noTokenGoogle Background [])
  = [CallFindDefaultCredentials Background [emailScope]]
  /\ getServiceAccountEmail_run failingGoogle Background []
     = ([CallFindDefaultCredentials Background [emailScope];
         CallNewService Background 5; CallUserinfoGet 1],
        ("", Some (fmt_Errorf "failed to get user info: %w"
                     [AErr (errors_New "401 unauthorized")]))).
Proof. split; reflexivity. Qed.

(** X27. [getEnvVariables] returns values exactly when all seven variables
    are non-empty, and then returns the values of username, password,
    database, project, region, instance and cluster in this order.
    Otherwise it skips, and the message names the first variable, in the
    order read, that is empty. *)
Theorem getEnvVariables_outcome (getenv : string -> string) :
  match getEnvVariables getenv with
  | EnvValues u p d pr r i c =>
      [u; p; d; pr; r; i; c] = map getenv envVariableNames
      /\ Forall (fun v => getenv v <> "") envVariableNames
  | Skipped msg =>
      exists before v after,
        envVariableNames = (before ++ v :: after)%list
        /\ Forall (fun w => getenv w <> "") before
        /\ getenv v = ""
        /\ msg = v ++ " environment variable not set"
  end.
Proof.
  unfold getEnvVariables.
  destruct (String.eqb_spec (getenv "ALLOYDB_USERNAME") "") as [H1 | H1].
  { exists [], "ALLOYDB_USERNAME". eexists.
    split; [reflexivity |]. split; [constructor |]. split; [exact H1 | reflexivity]. }
  destruct (String.eqb_spec (getenv "ALLOYDB_PASSWORD") "") as [H2 | H2].
  { exists ["ALLOYDB_USERNAME"], "ALLOYDB_PASSWORD". eexists.
    split; [reflexivity |]. split; [repeat constructor; assumption |].
    split; [exact H2 | reflexivity]. }
  destruct (String.eqb_spec (getenv "ALLOYDB_DATABASE") "") as [H3 | H3].
  { exists ["ALLOYDB_USERNAME"; "ALLOYDB_PASSWORD"], "ALLOYDB_DATABASE". eexists.
    split; [reflexivity |]. split; [repeat constructor; assumption |].
    split; [exact H3 | reflexivity]. }
  destruct (String.eqb_spec (getenv "ALLOYDB_PROJECT_ID") "") as [H4 | H4].
  { exists ["ALLOYDB_USERNAME"; "ALLOYDB_PASSWORD"; "ALLOYDB_DATABASE"],
      "ALLOYDB_PROJECT_ID". eexists.
    split; [reflexivity |]. split; [repeat constructor; assumption |].
    split; [exact H4 | reflexivity]. }
  destruct (String.eqb_spec (getenv "ALLOYDB_REGION") "") as [H5 | H5].
  { exists ["ALLOYDB_USERNAME"; "ALLOYDB_PASSWORD"; "ALLOYDB_DATABASE";
            "ALLOYDB_PROJECT_ID"], "ALLOYDB_REGION". eexists.
    split; [reflexivity |]. split; [repeat constructor; assumption |].
    split; [exact H5 | reflexivity]. }
  destruct (String.eqb_spec (getenv "ALLOYDB_INSTANCE") "") as [H6 | H6].
  { exists ["ALLOYDB_USERNAME"; "ALLOYDB_PASSWORD"; "ALLOYDB_DATABASE";
            "ALLOYDB_PROJECT_ID"; "ALLOYDB_REGION"], "ALLOYDB_INSTANCE". eexists.
    split; [reflexivity |]. split; [repeat constructor; assumption |].
    split; [exact H6 | reflexivity]. }
  destruct (String.eqb_spec (getenv "ALLOYDB_CLUSTER") "") as [H7 | H7].
  { exists ["ALLOYDB_USERNAME"; "ALLOYDB_PASSWORD"; "ALLOYDB_DATABASE";
            "ALLOYDB_PROJECT_ID"; "ALLOYDB_REGION"; "ALLOYDB_INSTANCE"],
      "ALLOYDB_CLUSTER". eexists.
    split; [reflexivity |]. split; [repeat constructor; assumption |].
    split; [exact H7 | reflexivity]. }
  split; [reflexivity | repeat constructor; assumption].
Qed.

Example getEnvVariables_missing_cluster :
  getEnvVariables noClusterEnv
  = Skipped "ALLOYDB_CLUSTER environment variable not set".
Proof. reflexivity. Qed.
